(** * CameraHardware: the capture controller of libcamera

    A shallow embedding of [src/libcamera/CameraHardware.cpp] and the
    properties of its preview, recording, still-capture and configuration
    operations.

    Layout of the development:
    - [Int32]: the C [int] arithmetic the controller performs;
    - [Libc]: [strtol] and the [%d] conversion of [sprintf], as far as the
      configuration container needs them;
    - [CameraParameters]: the platform's string-keyed configuration
      container, seen through the accessors the controller calls;
    - [CameraHardware]: the controller itself, written in a small state
      monad over its member fields and the log of the calls it makes to its
      collaborators (the V4L2 camera, the heap allocator, the client's
      callbacks, the preview thread);
    - the facts about each of them, and the properties of the controller. *)

From Stdlib Require Import ZArith Lia List Ascii String.
From Stdlib Require Import DecimalString DecimalZ DecimalPos DecimalN.
From stdpp Require Import gmap strings.
Import ListNotations.

Local Open Scope string_scope.
Local Open Scope Z_scope.

(* ===================================================================== *)
(** ** C [int] arithmetic *)
(* ===================================================================== *)

Module Int32.

Definition INT_MIN : Z := - 2 ^ 31.
Definition INT_MAX : Z := 2 ^ 31 - 1.

Definition in_range (z : Z) : Prop := INT_MIN <= z <= INT_MAX.

(** Two's-complement reduction of a mathematical result to 32 bits, the
    value the ARM and x86 targets leave in the register. *)
Definition wrap (z : Z) : Z := (z + 2 ^ 31) mod 2 ^ 32 - 2 ^ 31.

(** [a * b] on [int]. *)
Definition mul (a b : Z) : Z := wrap (a * b).

(** [a / b] on [int]: C division truncates toward zero. *)
Definition div (a b : Z) : Z := wrap (Z.quot a b).

End Int32.

(* ===================================================================== *)
(** ** The two libc routines behind the configuration container *)
(* ===================================================================== *)

Module Libc.

(** [long] is 32 bits wide on the 32-bit targets this HAL is built for. *)
Definition LONG_MIN : Z := Int32.INT_MIN.
Definition LONG_MAX : Z := Int32.INT_MAX.

Definition code (c : ascii) : Z := Z.of_nat (nat_of_ascii c).

Definition isspace (c : ascii) : bool :=
  let n := code c in (n =? 32) || ((9 <=? n) && (n <=? 13)).

Fixpoint skip_space (s : string) : string :=
  match s with
  | String c r => if isspace c then skip_space r else s
  | EmptyString => s
  end.

(** Value of a character as a digit in some base up to 36. *)
Definition digit_val (c : ascii) : option Z :=
  let n := code c in
  if (48 <=? n) && (n <=? 57) then Some (n - 48)
  else if (97 <=? n) && (n <=? 122) then Some (n - 87)
  else if (65 <=? n) && (n <=? 90) then Some (n - 55)
  else None.

Definition is_digit (base : Z) (c : ascii) : bool :=
  match digit_val c with
  | Some d => d <? base
  | None => false
  end.

Definition starts_with_digit (base : Z) (s : string) : bool :=
  match s with
  | String c _ => is_digit base c
  | EmptyString => false
  end.

(** The digit loop of [strtol]: accumulates while the next character is a
    digit of the base, and returns the value and the unread rest. *)
Fixpoint digits (base : Z) (s : string) (acc : Z) : Z * string :=
  match s with
  | String c r =>
      match digit_val c with
      | Some d => if d <? base then digits base r (acc * base + d)
                  else (acc, s)
      | None => (acc, s)
      end
  | EmptyString => (acc, s)
  end.

Definition clamp (z : Z) : Z := Z.max LONG_MIN (Z.min LONG_MAX z).

(** [strtol(s, &end, base)] for base 0, 8, 10 or 16: the value and the
    string [end] points to.  No digits: value 0 and [end = s]. Out of
    range: the value saturates. *)
Definition strtol (s : string) (base : Z) : Z * string :=
  let s1 := skip_space s in
  let '(neg, s2) :=
    match s1 with
    | String "-" r => (true, r)
    | String "+" r => (false, r)
    | _ => (false, s1)
    end in
  let '(b, s3) :=
    match s2 with
    | String "0" (String x r) =>
        if ((base =? 0) || (base =? 16))
           && ((code x =? 120) || (code x =? 88))
           && starts_with_digit 16 r
        then (16, r)
        else if base =? 0 then (8, s2) else (base, s2)
    | String "0" EmptyString => if base =? 0 then (8, s2) else (base, s2)
    | _ => if base =? 0 then (10, s2) else (base, s2)
    end in
  if starts_with_digit b s3 then
    let '(v, rest) := digits b s3 0 in
    (clamp (if neg then - v else v), rest)
  else (0, s).

(** The value of a run of decimal digits read from the left, starting
    from [acc]: what [digits] computes on the text of the run. *)
Fixpoint uint_value (u : Decimal.uint) (acc : Z) : Z :=
  match u with
  | Decimal.Nil => acc
  | Decimal.D0 u' => uint_value u' (acc * 10 + 0)
  | Decimal.D1 u' => uint_value u' (acc * 10 + 1)
  | Decimal.D2 u' => uint_value u' (acc * 10 + 2)
  | Decimal.D3 u' => uint_value u' (acc * 10 + 3)
  | Decimal.D4 u' => uint_value u' (acc * 10 + 4)
  | Decimal.D5 u' => uint_value u' (acc * 10 + 5)
  | Decimal.D6 u' => uint_value u' (acc * 10 + 6)
  | Decimal.D7 u' => uint_value u' (acc * 10 + 7)
  | Decimal.D8 u' => uint_value u' (acc * 10 + 8)
  | Decimal.D9 u' => uint_value u' (acc * 10 + 9)
  end.

(** The text [sprintf] writes for a [%d] conversion. *)
Definition show_int (z : Z) : string := NilZero.string_of_int (Z.to_int z).

End Libc.

(* ===================================================================== *)
(** ** The configuration container *)
(* ===================================================================== *)

(** [CameraParameters] belongs to the platform, not to this repository: a
    map from string keys to string values with typed accessors on top.  The
    definitions below follow the accessors the controller calls. *)
Module CameraParameters.

Abbreviation t := (gmap string string).

Definition KEY_PREVIEW_SIZE : string := "preview-size".
Definition KEY_SUPPORTED_PREVIEW_SIZES : string := "preview-size-values".
Definition KEY_PREVIEW_FORMAT : string := "preview-format".
Definition KEY_PREVIEW_FRAME_RATE : string := "preview-frame-rate".
Definition KEY_SUPPORTED_PREVIEW_FPS_RANGE : string :=
  "preview-fps-range-values".
Definition KEY_PICTURE_SIZE : string := "picture-size".
Definition KEY_SUPPORTED_PICTURE_SIZES : string := "picture-size-values".
Definition KEY_PICTURE_FORMAT : string := "picture-format".
Definition KEY_VIDEO_FRAME_FORMAT : string := "video-frame-format".
Definition PIXEL_FORMAT_YUV420SP : string := "yuv420sp".

(** A default-constructed container. *)
Definition empty : t := ∅.

(** [set(key, value)].  The platform's [set] ignores a key or a value
    with '=' or ';' in it; the controller writes none. *)
Definition set (key value : string) (p : t) : t := <[key := value]> p.

(** [get(key)]: the null pointer for a missing or empty value. *)
Definition get (key : string) (p : t) : option string :=
  match p !! key with
  | Some v => if String.eqb v "" then None else Some v
  | None => None
  end.

(** [set(key, int)] writes the value with [%d]. *)
Definition setInt (key : string) (value : Z) (p : t) : t :=
  set key (Libc.show_int value) p.

(** [getInt(key)]: -1 without a value, else [strtol(v, 0, 0)]. *)
Definition getInt (key : string) (p : t) : Z :=
  match get key p with
  | None => -1
  | Some v => fst (Libc.strtol v 0)
  end.

(** [parse_pair(str, &first, &second, 'x')]: two decimal integers with
    the delimiter right after the first; [None] when it is not there. *)
Definition parse_pair (str : string) : option (Z * Z) :=
  let '(w, rest) := Libc.strtol str 10 in
  match rest with
  | String "x" rest' => Some (w, fst (Libc.strtol rest' 10))
  | _ => None
  end.

(** The [WxH] getters start from -1, -1 and keep it when the value is
    missing or does not parse. *)
Definition getSize (key : string) (p : t) : Z * Z :=
  match get key p with
  | None => (-1, -1)
  | Some v =>
      match parse_pair v with
      | Some wh => wh
      | None => (-1, -1)
      end
  end.

(** The [WxH] setters write [sprintf("%dx%d", width, height)]. *)
Definition setSize (key : string) (width height : Z) (p : t) : t :=
  set key (Libc.show_int width ++ "x" ++ Libc.show_int height) p.

Definition setPreviewSize := setSize KEY_PREVIEW_SIZE.
Definition getPreviewSize := getSize KEY_PREVIEW_SIZE.
Definition setPictureSize := setSize KEY_PICTURE_SIZE.
Definition getPictureSize := getSize KEY_PICTURE_SIZE.
Definition setPreviewFrameRate := setInt KEY_PREVIEW_FRAME_RATE.
Definition getPreviewFrameRate := getInt KEY_PREVIEW_FRAME_RATE.
Definition setPreviewFormat := set KEY_PREVIEW_FORMAT.
Definition getPreviewFormat := get KEY_PREVIEW_FORMAT.
Definition setPictureFormat := set KEY_PICTURE_FORMAT.
Definition getPictureFormat := get KEY_PICTURE_FORMAT.

End CameraParameters.

(* ===================================================================== *)
(** ** The capture controller *)
(* ===================================================================== *)

Module CameraHardware.

Import CameraParameters.

(** *** Constants *)

(** Status codes of the platform's [utils/Errors.h]. *)
Definition NO_ERROR : Z := 0.
Definition INVALID_OPERATION : Z := -38.
Definition BAD_VALUE : Z := -22.

(** Message kinds of the platform's camera interface, one bit each. *)
Definition CAMERA_MSG_SHUTTER : Z := 2.
Definition CAMERA_MSG_FOCUS : Z := 4.
Definition CAMERA_MSG_PREVIEW_FRAME : Z := 16.
Definition CAMERA_MSG_VIDEO_FRAME : Z := 32.
Definition CAMERA_MSG_COMPRESSED_IMAGE : Z := 256.

Definition MIN_WIDTH : Z := 320.
Definition MIN_HEIGHT : Z := 240.
Definition CAM_SIZE : string := "320x240".

(** [V4L2_PIX_FMT_YUYV], the fourcc of 'Y' 'U' 'Y' 'V'. *)
Definition PIXEL_FORMAT : Z := 0x56595559.

Definition supportedFpsRanges : string :=
  "(8000,8000),(8000,10000),(10000,10000),(8000,15000),(15000,15000),(8000,20000),(20000,20000),(24000,24000),(25000,25000),(8000,30000),(30000,30000)".

(** The ranges that string spells out, and the way it spells them. *)
Definition fpsRanges : list (Z * Z) :=
  [ (8000, 8000); (8000, 10000); (10000, 10000); (8000, 15000);
    (15000, 15000); (8000, 20000); (20000, 20000); (24000, 24000);
    (25000, 25000); (8000, 30000); (30000, 30000) ].

Definition show_range (r : Z * Z) : string :=
  "(" ++ Libc.show_int (fst r) ++ "," ++ Libc.show_int (snd r) ++ ")".

Definition show_ranges (l : list (Z * Z)) : string :=
  String.concat "," (map show_range l).

(** *** The objects the controller holds *)

(** A [MemoryHeapBase], identified by its position in the call log and
    carrying the size it was requested with. *)
Record MemoryHeapBase := { heap_id : nat; heap_size : Z }.

(** A [MemoryBase]: a window into a heap. *)
Record MemoryBase :=
  { mem_heap : option MemoryHeapBase; mem_offset : Z; mem_size : Z }.

(** Function pointers and the client's cookie: [None] is the null
    pointer. *)
Abbreviation pointer := (option nat).

(** *** Calls to the collaborators

    Every call the controller makes to the V4L2 camera, the allocator,
    the conversion routine, the preview thread and the client's callbacks
    is appended to a log, with the arguments it is made with.  A call
    through a null function pointer, or on a null heap, is logged like any
    other, with [None] in that place; what becomes of the process after
    such a call is outside the model. *)
Inductive Call :=
| CamOpen (devnode : string) (width height pixelformat : Z)
| CamInit
| CamStartStreaming
| CamGrabPreviewFrame (heap : option MemoryHeapBase)
| CamGrabJpegFrame
| CamUninit
| CamStopStreaming
| CamClose
| NewMemoryHeapBase (size : Z)
| Yuyv422ToYuv420sp (src dst : option MemoryHeapBase) (width height : Z)
| ThreadRun (thread : nat)
| ThreadRequestExitAndWait (thread : nat)
| NotifyFn (fn : pointer) (msg ext1 ext2 : Z) (user : pointer)
| DataFn (fn : pointer) (msg : Z) (mem : option MemoryBase) (user : pointer)
| TimestampFn (fn : pointer) (timestamp msg : Z) (mem : option MemoryBase)
    (user : pointer).

(** What the collaborators answer, as a function of the calls made so
    far: the results of the three fallible camera operations, the JPEG
    frame the camera hands out, the monotonic clock, and the number of
    iterations the preview thread still starts before it honours an exit
    request. *)
Record World :=
  { open_result : list Call -> string -> Z -> Z -> Z;
    init_result : list Call -> Z;
    start_result : list Call -> Z;
    jpeg_frame : list Call -> option MemoryBase;
    system_time : list Call -> Z;
    late_iterations : list Call -> nat }.

(** *** The member fields

    Fields that no operation below reads ([mPreviewHeap], [mRawHeap],
    [mCurrentPreviewFrame], [nQueued], [nDequeued]) are left out.  The
    class is declared in [CameraHardware.h]; [mPreviewFrameSize] is taken
    to be an [int], as its initialiser and its uses have it.  [calls] is
    the log. *)
Record State :=
  { mCameraId : Z;
    mParameters : CameraParameters.t;
    mHeap : option MemoryHeapBase;
    mBuffer : option MemoryBase;
    mRecordHeap : option MemoryHeapBase;
    mRecordBuffer : option MemoryBase;
    mPreviewFrameSize : Z;
    mRecordRunning : bool;
    previewStopped : bool;
    mPreviewThread : option nat;
    mNotifyFn : pointer;
    mDataFn : pointer;
    mTimestampFn : pointer;
    mUser : pointer;
    mMsgEnabled : Z;
    calls : list Call }.

(** Assignment to one field. *)
Definition set_mParameters (v : CameraParameters.t) (s : State) : State :=
  {| mCameraId := mCameraId s; mParameters := v;
     mHeap := mHeap s; mBuffer := mBuffer s;
     mRecordHeap := mRecordHeap s; mRecordBuffer := mRecordBuffer s;
     mPreviewFrameSize := mPreviewFrameSize s;
     mRecordRunning := mRecordRunning s;
     previewStopped := previewStopped s; mPreviewThread := mPreviewThread s;
     mNotifyFn := mNotifyFn s; mDataFn := mDataFn s;
     mTimestampFn := mTimestampFn s; mUser := mUser s;
     mMsgEnabled := mMsgEnabled s; calls := calls s |}.

Definition set_mHeap (v : option MemoryHeapBase) (s : State) : State :=
  {| mCameraId := mCameraId s; mParameters := mParameters s;
     mHeap := v; mBuffer := mBuffer s;
     mRecordHeap := mRecordHeap s; mRecordBuffer := mRecordBuffer s;
     mPreviewFrameSize := mPreviewFrameSize s;
     mRecordRunning := mRecordRunning s;
     previewStopped := previewStopped s; mPreviewThread := mPreviewThread s;
     mNotifyFn := mNotifyFn s; mDataFn := mDataFn s;
     mTimestampFn := mTimestampFn s; mUser := mUser s;
     mMsgEnabled := mMsgEnabled s; calls := calls s |}.

Definition set_mBuffer (v : option MemoryBase) (s : State) : State :=
  {| mCameraId := mCameraId s; mParameters := mParameters s;
     mHeap := mHeap s; mBuffer := v;
     mRecordHeap := mRecordHeap s; mRecordBuffer := mRecordBuffer s;
     mPreviewFrameSize := mPreviewFrameSize s;
     mRecordRunning := mRecordRunning s;
     previewStopped := previewStopped s; mPreviewThread := mPreviewThread s;
     mNotifyFn := mNotifyFn s; mDataFn := mDataFn s;
     mTimestampFn := mTimestampFn s; mUser := mUser s;
     mMsgEnabled := mMsgEnabled s; calls := calls s |}.

Definition set_mRecordHeap (v : option MemoryHeapBase) (s : State) : State :=
  {| mCameraId := mCameraId s; mParameters := mParameters s;
     mHeap := mHeap s; mBuffer := mBuffer s;
     mRecordHeap := v; mRecordBuffer := mRecordBuffer s;
     mPreviewFrameSize := mPreviewFrameSize s;
     mRecordRunning := mRecordRunning s;
     previewStopped := previewStopped s; mPreviewThread := mPreviewThread s;
     mNotifyFn := mNotifyFn s; mDataFn := mDataFn s;
     mTimestampFn := mTimestampFn s; mUser := mUser s;
     mMsgEnabled := mMsgEnabled s; calls := calls s |}.

Definition set_mRecordBuffer (v : option MemoryBase) (s : State) : State :=
  {| mCameraId := mCameraId s; mParameters := mParameters s;
     mHeap := mHeap s; mBuffer := mBuffer s;
     mRecordHeap := mRecordHeap s; mRecordBuffer := v;
     mPreviewFrameSize := mPreviewFrameSize s;
     mRecordRunning := mRecordRunning s;
     previewStopped := previewStopped s; mPreviewThread := mPreviewThread s;
     mNotifyFn := mNotifyFn s; mDataFn := mDataFn s;
     mTimestampFn := mTimestampFn s; mUser := mUser s;
     mMsgEnabled := mMsgEnabled s; calls := calls s |}.

Definition set_mPreviewFrameSize (v : Z) (s : State) : State :=
  {| mCameraId := mCameraId s; mParameters := mParameters s;
     mHeap := mHeap s; mBuffer := mBuffer s;
     mRecordHeap := mRecordHeap s; mRecordBuffer := mRecordBuffer s;
     mPreviewFrameSize := v;
     mRecordRunning := mRecordRunning s;
     previewStopped := previewStopped s; mPreviewThread := mPreviewThread s;
     mNotifyFn := mNotifyFn s; mDataFn := mDataFn s;
     mTimestampFn := mTimestampFn s; mUser := mUser s;
     mMsgEnabled := mMsgEnabled s; calls := calls s |}.

Definition set_mRecordRunning (v : bool) (s : State) : State :=
  {| mCameraId := mCameraId s; mParameters := mParameters s;
     mHeap := mHeap s; mBuffer := mBuffer s;
     mRecordHeap := mRecordHeap s; mRecordBuffer := mRecordBuffer s;
     mPreviewFrameSize := mPreviewFrameSize s;
     mRecordRunning := v;
     previewStopped := previewStopped s; mPreviewThread := mPreviewThread s;
     mNotifyFn := mNotifyFn s; mDataFn := mDataFn s;
     mTimestampFn := mTimestampFn s; mUser := mUser s;
     mMsgEnabled := mMsgEnabled s; calls := calls s |}.

Definition set_previewStopped (v : bool) (s : State) : State :=
  {| mCameraId := mCameraId s; mParameters := mParameters s;
     mHeap := mHeap s; mBuffer := mBuffer s;
     mRecordHeap := mRecordHeap s; mRecordBuffer := mRecordBuffer s;
     mPreviewFrameSize := mPreviewFrameSize s;
     mRecordRunning := mRecordRunning s;
     previewStopped := v; mPreviewThread := mPreviewThread s;
     mNotifyFn := mNotifyFn s; mDataFn := mDataFn s;
     mTimestampFn := mTimestampFn s; mUser := mUser s;
     mMsgEnabled := mMsgEnabled s; calls := calls s |}.

Definition set_mPreviewThread (v : option nat) (s : State) : State :=
  {| mCameraId := mCameraId s; mParameters := mParameters s;
     mHeap := mHeap s; mBuffer := mBuffer s;
     mRecordHeap := mRecordHeap s; mRecordBuffer := mRecordBuffer s;
     mPreviewFrameSize := mPreviewFrameSize s;
     mRecordRunning := mRecordRunning s;
     previewStopped := previewStopped s; mPreviewThread := v;
     mNotifyFn := mNotifyFn s; mDataFn := mDataFn s;
     mTimestampFn := mTimestampFn s; mUser := mUser s;
     mMsgEnabled := mMsgEnabled s; calls := calls s |}.

Definition set_mNotifyFn (v : pointer) (s : State) : State :=
  {| mCameraId := mCameraId s; mParameters := mParameters s;
     mHeap := mHeap s; mBuffer := mBuffer s;
     mRecordHeap := mRecordHeap s; mRecordBuffer := mRecordBuffer s;
     mPreviewFrameSize := mPreviewFrameSize s;
     mRecordRunning := mRecordRunning s;
     previewStopped := previewStopped s; mPreviewThread := mPreviewThread s;
     mNotifyFn := v; mDataFn := mDataFn s;
     mTimestampFn := mTimestampFn s; mUser := mUser s;
     mMsgEnabled := mMsgEnabled s; calls := calls s |}.

Definition set_mDataFn (v : pointer) (s : State) : State :=
  {| mCameraId := mCameraId s; mParameters := mParameters s;
     mHeap := mHeap s; mBuffer := mBuffer s;
     mRecordHeap := mRecordHeap s; mRecordBuffer := mRecordBuffer s;
     mPreviewFrameSize := mPreviewFrameSize s;
     mRecordRunning := mRecordRunning s;
     previewStopped := previewStopped s; mPreviewThread := mPreviewThread s;
     mNotifyFn := mNotifyFn s; mDataFn := v;
     mTimestampFn := mTimestampFn s; mUser := mUser s;
     mMsgEnabled := mMsgEnabled s; calls := calls s |}.

Definition set_mTimestampFn (v : pointer) (s : State) : State :=
  {| mCameraId := mCameraId s; mParameters := mParameters s;
     mHeap := mHeap s; mBuffer := mBuffer s;
     mRecordHeap := mRecordHeap s; mRecordBuffer := mRecordBuffer s;
     mPreviewFrameSize := mPreviewFrameSize s;
     mRecordRunning := mRecordRunning s;
     previewStopped := previewStopped s; mPreviewThread := mPreviewThread s;
     mNotifyFn := mNotifyFn s; mDataFn := mDataFn s;
     mTimestampFn := v; mUser := mUser s;
     mMsgEnabled := mMsgEnabled s; calls := calls s |}.

Definition set_mUser (v : pointer) (s : State) : State :=
  {| mCameraId := mCameraId s; mParameters := mParameters s;
     mHeap := mHeap s; mBuffer := mBuffer s;
     mRecordHeap := mRecordHeap s; mRecordBuffer := mRecordBuffer s;
     mPreviewFrameSize := mPreviewFrameSize s;
     mRecordRunning := mRecordRunning s;
     previewStopped := previewStopped s; mPreviewThread := mPreviewThread s;
     mNotifyFn := mNotifyFn s; mDataFn := mDataFn s;
     mTimestampFn := mTimestampFn s; mUser := v;
     mMsgEnabled := mMsgEnabled s; calls := calls s |}.

Definition set_mMsgEnabled (v : Z) (s : State) : State :=
  {| mCameraId := mCameraId s; mParameters := mParameters s;
     mHeap := mHeap s; mBuffer := mBuffer s;
     mRecordHeap := mRecordHeap s; mRecordBuffer := mRecordBuffer s;
     mPreviewFrameSize := mPreviewFrameSize s;
     mRecordRunning := mRecordRunning s;
     previewStopped := previewStopped s; mPreviewThread := mPreviewThread s;
     mNotifyFn := mNotifyFn s; mDataFn := mDataFn s;
     mTimestampFn := mTimestampFn s; mUser := mUser s;
     mMsgEnabled := v; calls := calls s |}.

Definition set_calls (v : list Call) (s : State) : State :=
  {| mCameraId := mCameraId s; mParameters := mParameters s;
     mHeap := mHeap s; mBuffer := mBuffer s;
     mRecordHeap := mRecordHeap s; mRecordBuffer := mRecordBuffer s;
     mPreviewFrameSize := mPreviewFrameSize s;
     mRecordRunning := mRecordRunning s;
     previewStopped := previewStopped s; mPreviewThread := mPreviewThread s;
     mNotifyFn := mNotifyFn s; mDataFn := mDataFn s;
     mTimestampFn := mTimestampFn s; mUser := mUser s;
     mMsgEnabled := mMsgEnabled s; calls := v |}.

(** *** A state monad for the member functions *)

Definition M (A : Type) : Type := State -> A * State.

Definition ret {A} (a : A) : M A := fun s => (a, s).

Definition bind {A B} (m : M A) (k : A -> M B) : M B :=
  fun s => k (fst (m s)) (snd (m s)).

Definition gets {A} (f : State -> A) : M A := fun s => (f s, s).

Definition modify (f : State -> State) : M unit := fun s => (tt, f s).

Definition when (b : bool) (m : M unit) : M unit := if b then m else ret tt.

(** Appends one call to the log. *)
Definition call (c : Call) : M unit :=
  modify (fun s => set_calls (calls s ++ [c]) s).

Declare Scope cam_scope.
Delimit Scope cam_scope with cam.
Notation "x <- m ;; k" := (bind m (fun x => k))
  (at level 100, m at next level, k at level 200, right associativity)
  : cam_scope.
Notation "m ;; k" := (bind m (fun _ => k))
  (at level 100, k at level 200, right associativity) : cam_scope.
Local Open Scope cam_scope.

(** [m] run [n] times in a row. *)
Fixpoint repeat_m (n : nat) (m : M unit) : M unit :=
  match n with
  | O => ret tt
  | S n' => m ;; repeat_m n' m
  end.

(** [mask & kind], read as a condition. *)
Definition enabled (mask kind : Z) : bool := negb (Z.land mask kind =? 0).

(** [strcmp(s, lit) != 0].  A format the container does not hold comes
    back as the null pointer, on which [strcmp] is undefined; the model
    takes the mismatch branch there.  The properties of [setParameters]
    are stated for configurations that hold their formats. *)
Definition differs (s : option string) (lit : string) : bool :=
  match s with
  | Some v => negb (String.eqb v lit)
  | None => true
  end.

(** [sprintf(devnode, "/dev/video%d", i)]. *)
Definition devnode (i : Z) : string := "/dev/video" ++ Libc.show_int i.

Section Operations.

Variable W : World.

(** **** The collaborators *)

Definition camera_Open (node : string) (width height fmt : Z) : M Z :=
  r <- gets (fun s => open_result W (calls s) node width height) ;;
  call (CamOpen node width height fmt) ;;
  ret r.

Definition camera_Init : M Z :=
  r <- gets (fun s => init_result W (calls s)) ;;
  call CamInit ;;
  ret r.

Definition camera_StartStreaming : M Z :=
  r <- gets (fun s => start_result W (calls s)) ;;
  call CamStartStreaming ;;
  ret r.

Definition camera_GrabJpegFrame : M (option MemoryBase) :=
  r <- gets (fun s => jpeg_frame W (calls s)) ;;
  call CamGrabJpegFrame ;;
  ret r.

Definition systemTime : M Z := gets (fun s => system_time W (calls s)).

Definition new_MemoryHeapBase (size : Z) : M (option MemoryHeapBase) :=
  id <- gets (fun s => length (calls s)) ;;
  call (NewMemoryHeapBase size) ;;
  ret (Some {| heap_id := id; heap_size := size |}).

Definition new_MemoryBase (heap : option MemoryHeapBase) (offset size : Z)
  : M (option MemoryBase) :=
  ret (Some {| mem_heap := heap; mem_offset := offset; mem_size := size |}).

(** **** Callbacks and message kinds *)

Definition setCallbacks (notify_cb data_cb data_cb_timestamp arg : pointer)
  : M unit :=
  modify (set_mNotifyFn notify_cb) ;;
  modify (set_mDataFn data_cb) ;;
  modify (set_mTimestampFn data_cb_timestamp) ;;
  modify (set_mUser arg).

Definition enableMsgType (msgType : Z) : M unit :=
  modify (fun s => set_mMsgEnabled (Z.lor (mMsgEnabled s) msgType) s).

Definition disableMsgType (msgType : Z) : M unit :=
  modify (fun s =>
            set_mMsgEnabled (Z.land (mMsgEnabled s) (Z.lnot msgType)) s).

Definition msgTypeEnabled (msgType : Z) : M bool :=
  gets (fun s => enabled (mMsgEnabled s) msgType).

(** **** Preview *)

(** One iteration of the preview loop. *)
Definition previewThread : M Z :=
  size <- gets (fun s => getPreviewSize (mParameters s)) ;;
  let width := fst size in
  let height := snd size in
  stopped <- gets previewStopped ;;
  when (negb stopped)
    (heap <- gets mHeap ;;
     call (CamGrabPreviewFrame heap) ;;
     mask <- gets mMsgEnabled ;;
     when (enabled mask CAMERA_MSG_PREVIEW_FRAME
           || enabled mask CAMERA_MSG_VIDEO_FRAME)
       (recording <- gets mRecordRunning ;;
        when (enabled mask CAMERA_MSG_VIDEO_FRAME && recording)
          (recordHeap <- gets mRecordHeap ;;
           call (Yuyv422ToYuv420sp heap recordHeap width height) ;;
           timeStamp <- systemTime ;;
           fn <- gets mTimestampFn ;;
           recordBuffer <- gets mRecordBuffer ;;
           user <- gets mUser ;;
           call (TimestampFn fn timeStamp CAMERA_MSG_VIDEO_FRAME
                   recordBuffer user)) ;;
        fn <- gets mDataFn ;;
        buffer <- gets mBuffer ;;
        user <- gets mUser ;;
        call (DataFn fn CAMERA_MSG_PREVIEW_FRAME buffer user))) ;;
  ret NO_ERROR.

(** The [for] loop over the device nodes: [n] iterations are left, [i]
    is the loop variable and [r] the last result of [camera.Open].  The
    source enters the loop with ten iterations to run and [ret] not yet
    assigned, so the [r] it starts from is never read. *)
Fixpoint probe (n : nat) (i : Z) (width height r : Z) : M Z :=
  match n with
  | O => ret r
  | S n' =>
      r' <- camera_Open (devnode i) width height PIXEL_FORMAT ;;
      if r' >=? 0 then ret r' else probe n' (i + 1) width height r'
  end.

(** Modelled from the spec: the Preview Loop, class [PreviewThread] of
    [CameraHardware.h], which is not among the sources.  Creating it
    starts a thread whose every iteration is one call of [previewThread];
    [requestExitAndWait] returns when that thread has exited, which may be
    after some more iterations. *)
Definition threadLoop : M unit := previewThread ;; ret tt.

Definition new_PreviewThread : M (option nat) :=
  id <- gets (fun s => length (calls s)) ;;
  call (ThreadRun id) ;;
  ret (Some id).

Definition requestExitAndWait (thread : nat) : M unit :=
  call (ThreadRequestExitAndWait thread) ;;
  n <- gets (fun s => late_iterations W (calls s)) ;;
  repeat_m n threadLoop.

Definition startPreview : M Z :=
  thread <- gets mPreviewThread ;;
  if thread is Some _ then ret INVALID_OPERATION
  else
    size <- gets (fun s => getPreviewSize (mParameters s)) ;;
    let width := fst size in
    let height := snd size in
    r <- probe 10 0 width height 0 ;;
    if r <? 0 then ret (-1)
    else
      modify (set_mPreviewFrameSize
                (Int32.mul (Int32.mul width height) 2)) ;;
      frameSize <- gets mPreviewFrameSize ;;
      heap <- new_MemoryHeapBase frameSize ;;
      modify (set_mHeap heap) ;;
      buffer <- new_MemoryBase heap 0 frameSize ;;
      modify (set_mBuffer buffer) ;;
      r <- camera_Init ;;
      if negb (r =? 0) then call CamClose ;; ret r
      else
        r <- camera_StartStreaming ;;
        if negb (r =? 0) then call CamUninit ;; call CamClose ;; ret r
        else
          modify (set_previewStopped false) ;;
          t <- new_PreviewThread ;;
          modify (set_mPreviewThread t) ;;
          ret NO_ERROR.

Definition stopPreview : M unit :=
  modify (set_previewStopped true) ;;
  previewThread' <- gets mPreviewThread ;;
  (if previewThread' is Some t then requestExitAndWait t else ret tt) ;;
  thread <- gets mPreviewThread ;;
  when (bool_decide (is_Some thread))
    (call CamUninit ;; call CamStopStreaming ;; call CamClose) ;;
  modify (set_mPreviewThread None).

Definition previewEnabled : M bool :=
  gets (fun s => bool_decide (is_Some (mPreviewThread s))).

(** **** Recording *)

Definition startRecording : M Z :=
  frameSize <- gets mPreviewFrameSize ;;
  heap <- new_MemoryHeapBase (Int32.div (Int32.mul frameSize 3) 4) ;;
  modify (set_mRecordHeap heap) ;;
  buffer <- new_MemoryBase heap 0 (Int32.div (Int32.mul frameSize 3) 4) ;;
  modify (set_mRecordBuffer buffer) ;;
  modify (set_mRecordRunning true) ;;
  ret NO_ERROR.

Definition stopRecording : M unit := modify (set_mRecordRunning false).

Definition recordingEnabled : M bool := gets mRecordRunning.

(** **** Still capture *)

Definition pictureThread : M Z :=
  mask <- gets mMsgEnabled ;;
  when (enabled mask CAMERA_MSG_SHUTTER)
    (fn <- gets mNotifyFn ;;
     user <- gets mUser ;;
     call (NotifyFn fn CAMERA_MSG_SHUTTER 0 0 user)) ;;
  wh <- gets (fun s => getPictureSize (mParameters s)) ;;
  size <- gets (fun s => getPictureSize (mParameters s)) ;;
  size <- gets (fun s => getPreviewSize (mParameters s)) ;;
  let width := fst size in
  let height := snd size in
  r <- probe 10 0 width height 0 ;;
  if r <? 0 then ret (-1)
  else
    camera_Init ;;
    camera_StartStreaming ;;
    mask <- gets mMsgEnabled ;;
    when (enabled mask CAMERA_MSG_COMPRESSED_IMAGE)
      (fn <- gets mDataFn ;;
       frame <- camera_GrabJpegFrame ;;
       user <- gets mUser ;;
       call (DataFn fn CAMERA_MSG_COMPRESSED_IMAGE frame user)) ;;
    call CamUninit ;;
    call CamStopStreaming ;;
    call CamClose ;;
    ret NO_ERROR.

Definition takePicture : M Z :=
  stopPreview ;;
  pictureThread ;;
  ret NO_ERROR.

Definition cancelPicture : M Z := ret NO_ERROR.

(** **** Configuration *)

Definition setParameters (params : CameraParameters.t) : M Z :=
  if differs (getPreviewFormat params) "yuv422sp" then ret (-1)
  else if differs (getPictureFormat params) "jpeg" then ret (-1)
  else
    modify (set_mParameters params) ;;
    let '(w, h) := getPictureSize params in
    modify (fun s => set_mParameters (setPictureSize w h (mParameters s)) s) ;;
    let '(w, h) := getPreviewSize params in
    modify (fun s => set_mParameters (setPreviewSize w h (mParameters s)) s) ;;
    let framerate := getPreviewFrameRate params in
    modify (set_mParameters params) ;;
    modify (fun s => set_mParameters (setPreviewSize w h (mParameters s)) s) ;;
    modify (fun s =>
              set_mParameters
                (set KEY_SUPPORTED_PREVIEW_FPS_RANGE supportedFpsRanges
                   (mParameters s)) s) ;;
    ret NO_ERROR.

Definition getParameters : M CameraParameters.t := gets mParameters.

Definition sendCommand (command arg1 arg2 : Z) : M Z := ret BAD_VALUE.

(** **** Construction *)

Definition defaultParameters : CameraParameters.t :=
  let p := CameraParameters.empty in
  let p := setPreviewSize MIN_WIDTH MIN_HEIGHT p in
  let p := setPreviewFrameRate 30 p in
  let p := setPreviewFormat "yuv422sp" p in
  let p := set KEY_SUPPORTED_PREVIEW_SIZES CAM_SIZE p in
  let p := set KEY_SUPPORTED_PREVIEW_SIZES "640x480" p in
  let p := set KEY_VIDEO_FRAME_FORMAT PIXEL_FORMAT_YUV420SP p in
  let p := setPictureSize MIN_WIDTH MIN_HEIGHT p in
  let p := setPictureFormat "jpeg" p in
  set KEY_SUPPORTED_PICTURE_SIZES CAM_SIZE p.

Definition initDefaultParameters : M unit :=
  setParameters defaultParameters ;; ret tt.

(** The member initialisers of the constructor. *)
Definition initial (cameraId : Z) : State :=
  {| mCameraId := cameraId;
     mParameters := CameraParameters.empty;
     mHeap := None;
     mBuffer := None;
     mRecordHeap := None;
     mRecordBuffer := None;
     mPreviewFrameSize := 0;
     mRecordRunning := false;
     previewStopped := true;
     mPreviewThread := None;
     mNotifyFn := None;
     mDataFn := None;
     mTimestampFn := None;
     mUser := None;
     mMsgEnabled := 0;
     calls := [] |}.

(** [CameraHardware(cameraId)]: the controller as constructed. *)
Definition CameraHardware (cameraId : Z) : State :=
  snd (initDefaultParameters (initial cameraId)).

End Operations.

(** *** The controller in use

    Between two calls of the client the preview loop may run, as long as
    the controller holds its thread.  A run of the system is a sequence
    of such steps, each taken as a whole: an iteration of the loop that
    overlaps a call of the client, which the source does not exclude (the
    loop does not take the lock), is outside the model. *)
Inductive Op :=
| SetCallbacks (notify_cb data_cb data_cb_timestamp arg : pointer)
| EnableMsgType (msgType : Z)
| DisableMsgType (msgType : Z)
| StartPreview
| StopPreview
| StartRecording
| StopRecording
| TakePicture
| SetParameters (params : CameraParameters.t)
| LoopIteration.

Definition exec (W : World) (op : Op) (s : State) : State :=
  match op with
  | SetCallbacks n d t u => snd (setCallbacks n d t u s)
  | EnableMsgType k => snd (enableMsgType k s)
  | DisableMsgType k => snd (disableMsgType k s)
  | StartPreview => snd (startPreview W s)
  | StopPreview => snd (stopPreview W s)
  | StartRecording => snd (startRecording s)
  | StopRecording => snd (stopRecording s)
  | TakePicture => snd (takePicture W s)
  | SetParameters p => snd (setParameters p s)
  | LoopIteration =>
      if mPreviewThread s is Some _ then snd (threadLoop W s) else s
  end.

Definition run (W : World) (ops : list Op) (s : State) : State :=
  fold_left (fun st op => exec W op st) ops s.

Definition is_StartRecording (op : Op) : bool :=
  match op with StartRecording => true | _ => false end.

(** The calls an operation has added to the log of [s], given the log it
    leaves behind. *)
Definition added (s : State) (log : list Call) : list Call :=
  skipn (length (calls s)) log.

(** The calls to the camera device among those of a log. *)
Definition is_camera_call (c : Call) : bool :=
  match c with
  | CamOpen _ _ _ _ | CamInit | CamStartStreaming | CamGrabPreviewFrame _
  | CamGrabJpegFrame | CamUninit | CamStopStreaming | CamClose => true
  | _ => false
  end.

(** The buffer regions allocated among the calls of a log. *)
Definition is_allocation (c : Call) : bool :=
  match c with
  | NewMemoryHeapBase _ => true
  | _ => false
  end.

(** The callbacks of a log that deliver the message kind [kind]. *)
Definition carries (kind : Z) (c : Call) : bool :=
  match c with
  | NotifyFn _ msg _ _ _ | DataFn _ msg _ _ | TimestampFn _ _ msg _ _ =>
      msg =? kind
  | _ => false
  end.

Definition delivered (kind : Z) (log : list Call) : list Call :=
  filter (carries kind) log.

(** The log entries of [k] iterations of the loop over the device nodes,
    from node [a] on; [probes] are those of the first [k] iterations. *)
Definition opens (a k : nat) (width height : Z) : list Call :=
  map (fun i => CamOpen (devnode (Z.of_nat i)) width height PIXEL_FORMAT)
    (seq a k).

Definition probes (k : nat) (width height : Z) : list Call :=
  opens 0 k width height.

(** An operation [m] leaves the observation [f] of the controller as it
    was. *)
Definition preserves {A B} (f : State -> B) (m : M A) : Prop :=
  forall s, f (snd (m s)) = f s.

(** The calls of a still-capture cycle that found a node. *)
Definition still_calls (W : World) (s : State) (k : nat) : list Call :=
  let width := fst (getPreviewSize (mParameters s)) in
  let height := snd (getPreviewSize (mParameters s)) in
  let shutter :=
    if enabled (mMsgEnabled s) CAMERA_MSG_SHUTTER
    then [NotifyFn (mNotifyFn s) CAMERA_MSG_SHUTTER 0 0 (mUser s)] else [] in
  let opened :=
    (calls s ++ shutter ++ probes k width height
     ++ [CamInit; CamStartStreaming])%list in
  (shutter ++ probes k width height ++ [CamInit; CamStartStreaming]
   ++ (if enabled (mMsgEnabled s) CAMERA_MSG_COMPRESSED_IMAGE
       then [CamGrabJpegFrame;
             DataFn (mDataFn s) CAMERA_MSG_COMPRESSED_IMAGE
               (jpeg_frame W opened) (mUser s)]
       else [])
   ++ [CamUninit; CamStopStreaming; CamClose])%list.

(** The record buffer region: the heap and the window handed to the
    client with every video frame. *)
Definition record_region (s : State) :
  option MemoryHeapBase * option MemoryBase :=
  (mRecordHeap s, mRecordBuffer s).

(** *** Two worlds to run the controller in *)

(** A machine whose camera sits on [/dev/video1]: that node opens, init
    and stream-on succeed, the clock counts the calls made, and the
    preview thread starts two more iterations after an exit request. *)
Definition one_camera : World :=
  {| open_result := fun _ node _ _ =>
       if String.eqb node "/dev/video1" then 3 else -1;
     init_result := fun _ => 0;
     start_result := fun _ => 0;
     jpeg_frame := fun _ =>
       Some {| mem_heap := None; mem_offset := 0; mem_size := 4096 |};
     system_time := fun log => Z.of_nat (length log);
     late_iterations := fun _ => 2%nat |}.

(** A machine without a camera: no node opens. *)
Definition no_camera : World :=
  {| open_result := fun _ _ _ _ => -1;
     init_result := fun _ => 0;
     start_result := fun _ => 0;
     jpeg_frame := fun _ => None;
     system_time := fun _ => 0;
     late_iterations := fun _ => 0%nat |}.

(** *** Controllers to look at

    All of them are built on the machine with one camera, from the
    controller as constructed, after the client has installed its
    callbacks. *)
Definition client : Op :=
  SetCallbacks (Some 1%nat) (Some 2%nat) (Some 3%nat) (Some 4%nat).

(** Preview running, preview frames wanted. *)
Definition previewing : State :=
  run one_camera
    [client; EnableMsgType CAMERA_MSG_PREVIEW_FRAME; StartPreview]
    (CameraHardware 0).

(** Recording started after preview, video frames wanted. *)
Definition recording : State :=
  run one_camera
    [client; EnableMsgType CAMERA_MSG_VIDEO_FRAME; StartPreview;
     StartRecording]
    (CameraHardware 0).

(** Recording started before preview, video frames wanted. *)
Definition recording_first : State :=
  run one_camera
    [client; StartRecording; EnableMsgType CAMERA_MSG_VIDEO_FRAME;
     StartPreview]
    (CameraHardware 0).

(** Preview configured at 640x480, pictures left at 320x240; shutter and
    compressed-image events wanted. *)
Definition wide_preview : State :=
  run one_camera
    [client; SetParameters (setPreviewSize 640 480 defaultParameters);
     EnableMsgType CAMERA_MSG_SHUTTER;
     EnableMsgType CAMERA_MSG_COMPRESSED_IMAGE]
    (CameraHardware 0).

(** *** What holds of a controller in use *)

(** While the controller holds the preview loop, the stopped flag is clear
    and the preview buffer is a window over the whole of a heap of the
    preview frame size. *)
Definition preview_ready (s : State) : Prop :=
  forall t, mPreviewThread s = Some t ->
    previewStopped s = false
    /\ exists heap,
        mHeap s = Some heap
        /\ heap_size heap = mPreviewFrameSize s
        /\ mBuffer s
           = Some {| mem_heap := Some heap; mem_offset := 0;
                     mem_size := mPreviewFrameSize s |}.

(** While recording is active, the record buffer is a window over the
    whole of the record heap. *)
Definition record_ready (s : State) : Prop :=
  mRecordRunning s = true ->
  exists heap,
    mRecordHeap s = Some heap
    /\ mRecordBuffer s
       = Some {| mem_heap := Some heap; mem_offset := 0;
                 mem_size := heap_size heap |}.

(** The fields the two statements read. *)
Definition preview_session (s : State) :=
  (mPreviewThread s, previewStopped s, mHeap s, mBuffer s,
   mPreviewFrameSize s).

Definition record_session (s : State) :=
  (mRecordRunning s, mRecordHeap s, mRecordBuffer s).

(** *** The other member functions *)

Definition getPreviewHeap : M (option MemoryHeapBase) := gets mHeap.

(** [UNKNOWN_ERROR] of the platform's [Errors.h]: 0x80000000. *)
Definition UNKNOWN_ERROR : Z := Int32.INT_MIN.

Definition autoFocusThread : M Z :=
  mask <- gets mMsgEnabled ;;
  when (enabled mask CAMERA_MSG_FOCUS)
    (fn <- gets mNotifyFn ;;
     user <- gets mUser ;;
     call (NotifyFn fn CAMERA_MSG_FOCUS 1 0 user)) ;;
  ret NO_ERROR.

Definition beginAutoFocusThread : M Z := autoFocusThread.

(** [created] is what [createThread(beginAutoFocusThread, this)] returns;
    the thread it creates runs [beginAutoFocusThread] later. *)
Definition autoFocus (created : bool) : M Z :=
  if negb created then ret UNKNOWN_ERROR else ret NO_ERROR.

Definition cancelAutoFocus : M Z := ret NO_ERROR.

(** *** The singleton

    [createInstance] keeps a weak reference to the controller it made
    last.  The process holds the controllers alive, each with the number
    of strong references to it, and that weak reference; [next_object] is
    where the next controller is put.  A controller is destroyed, by the
    platform's [RefBase], when its last strong reference goes away. *)
Record Process := {
  singleton : option nat;
  objects : gmap nat (State * nat);
  next_object : nat
}.

(** No controller yet: the static [singleton] is null. *)
Definition boot : Process :=
  {| singleton := None; objects := ∅; next_object := 0%nat |}.

(** [wp::promote]: a strong reference to the object, if it is alive. *)
Definition promote (a : nat) (pr : Process) : option nat * Process :=
  match objects pr !! a with
  | Some (st, n) =>
      (Some a,
       {| singleton := singleton pr;
          objects := <[a := (st, S n)]> (objects pr);
          next_object := next_object pr |})
  | None => (None, pr)
  end.

(** [hardware(new CameraHardware(cameraId)); singleton = hardware]. *)
Definition new_CameraHardware (cameraId : Z) (pr : Process) : nat * Process :=
  let a := next_object pr in
  (a,
   {| singleton := Some a;
      objects := <[a := (CameraHardware cameraId, 1%nat)]> (objects pr);
      next_object := S a |}).

Definition createInstance (cameraId : Z) (pr : Process) : nat * Process :=
  match singleton pr with
  | Some a =>
      match promote a pr with
      | (Some hardware, pr') => (hardware, pr')
      | (None, pr') => new_CameraHardware cameraId pr'
      end
  | None => new_CameraHardware cameraId pr
  end.

Definition HAL_openCameraHardware (cameraId : Z) (pr : Process)
  : nat * Process :=
  createInstance cameraId pr.

(** [~CameraHardware]: [singleton.clear()]. *)
Definition destroy (a : nat) (pr : Process) : Process :=
  {| singleton := None;
     objects := delete a (objects pr);
     next_object := next_object pr |}.

(** A client lets go of a strong reference to the controller [a]. *)
Definition release_reference (a : nat) (pr : Process) : Process :=
  match objects pr !! a with
  | Some (st, n) =>
      if (n <=? 1)%nat then destroy a pr
      else {| singleton := singleton pr;
              objects := <[a := (st, pred n)]> (objects pr);
              next_object := next_object pr |}
  | None => pr
  end.

Inductive ProcessOp :=
| OpenCameraHardware (cameraId : Z)
| ReleaseReference (a : nat).

Definition process_exec (op : ProcessOp) (pr : Process) : Process :=
  match op with
  | OpenCameraHardware cameraId => snd (HAL_openCameraHardware cameraId pr)
  | ReleaseReference a => release_reference a pr
  end.

Definition process_run (ops : list ProcessOp) (pr : Process) : Process :=
  fold_left (fun p op => process_exec op p) ops pr.

(** Every controller alive is the one [singleton] refers to, and is held
    by a strong reference. *)
Definition one_instance (pr : Process) : Prop :=
  forall a x, objects pr !! a = Some x ->
    singleton pr = Some a /\ (1 <= snd x)%nat.

(** *** More to say about a controller in use *)

Definition is_SetCallbacks (op : Op) : bool :=
  match op with SetCallbacks _ _ _ _ => true | _ => false end.

Definition is_StartPreview (op : Op) : bool :=
  match op with StartPreview => true | _ => false end.

Definition is_SetParameters (op : Op) : bool :=
  match op with SetParameters _ => true | _ => false end.

(** [startPreview], called in state [s], gets a device node open: the
    controller holds no loop, so the nodes are probed, and the loop over
    them ends on a node the machine accepts. *)
Definition opens_node (W : World) (s : State) : bool :=
  match mPreviewThread s with
  | Some _ => false
  | None =>
      fst (probe W 10 0 (fst (getPreviewSize (mParameters s)))
             (snd (getPreviewSize (mParameters s))) 0 s) >=? 0
  end.

(** Some [startPreview] of the steps [ops], taken from [s], gets a device
    node open. *)
Fixpoint run_opens_node (W : World) (ops : list Op) (s : State) : bool :=
  match ops with
  | [] => false
  | op :: ops' =>
      is_StartPreview op && opens_node W s
      || run_opens_node W ops' (exec W op s)
  end.

(** The controller once [startPreview] has found a node: the frame size
    is set and the preview buffer region allocated, and [l] is what the
    log holds after the allocation. *)
Definition node_opened (s : State) (k : nat) (l : list Call) : State :=
  let width := fst (getPreviewSize (mParameters s)) in
  let height := snd (getPreviewSize (mParameters s)) in
  let size := Int32.mul (Int32.mul width height) 2 in
  let log := (calls s ++ probes k width height)%list in
  let heap := {| heap_id := length log; heap_size := size |} in
  set_calls (log ++ NewMemoryHeapBase size :: l)%list
    (set_mBuffer
       (Some {| mem_heap := Some heap; mem_offset := 0; mem_size := size |})
       (set_mHeap (Some heap) (set_mPreviewFrameSize size s))).

(** **** The device session, read off the log

    The camera device is closed or open.  [device_step] follows one call:
    [pre] is the log before it and [open] tells whether the device is open.
    A node is opened on a closed device only, and the device is open
    afterwards if the machine accepted the node; every other call to the
    device needs it open, and [Close] closes it.  [None] is a call that
    does not fit. *)
Definition device_step (W : World) (pre : list Call) (c : Call) (open : bool)
  : option bool :=
  match c with
  | CamOpen node width height _ =>
      if open then None
      else Some (open_result W pre node width height >=? 0)
  | CamClose => if open then Some false else None
  | CamInit | CamStartStreaming | CamGrabPreviewFrame _ | CamGrabJpegFrame
  | CamUninit | CamStopStreaming => if open then Some true else None
  | _ => Some open
  end.

Fixpoint device_track (W : World) (pre l : list Call) (open : bool)
  : option bool :=
  match l with
  | [] => Some open
  | c :: l' =>
      match device_step W pre c open with
      | Some open' => device_track W (pre ++ [c])%list l' open'
      | None => None
      end
  end.

(** The device after the calls of [log], from a closed device. *)
Definition device (W : World) (log : list Call) : option bool :=
  device_track W [] log false.

(** The device is open exactly while the controller holds the loop. *)
Definition in_session (W : World) (s : State) : Prop :=
  device W (calls s) = Some (bool_decide (is_Some (mPreviewThread s))).

(** **** What reaches the client

    What the controller may hand to the client in state [s]: a callback
    goes through the pointer installed for it, with the cookie installed,
    and carries a message kind that is enabled; a preview frame carries the
    preview buffer and is also delivered for the sake of video frames; a
    video frame carries the record buffer and needs recording active.
    Frames are delivered while the preview is not stopped. *)
Definition allowed (s : State) (c : Call) : Prop :=
  match c with
  | NotifyFn fn msg _ _ user =>
      fn = mNotifyFn s /\ user = mUser s
      /\ enabled (mMsgEnabled s) msg = true
  | DataFn fn msg mem user =>
      fn = mDataFn s /\ user = mUser s
      /\ (msg = CAMERA_MSG_PREVIEW_FRAME /\ mem = mBuffer s
          /\ previewStopped s = false
          /\ enabled (mMsgEnabled s) CAMERA_MSG_PREVIEW_FRAME
             || enabled (mMsgEnabled s) CAMERA_MSG_VIDEO_FRAME = true
          \/ msg = CAMERA_MSG_COMPRESSED_IMAGE
             /\ enabled (mMsgEnabled s) CAMERA_MSG_COMPRESSED_IMAGE = true)
  | TimestampFn fn _ msg mem user =>
      fn = mTimestampFn s /\ user = mUser s
      /\ msg = CAMERA_MSG_VIDEO_FRAME /\ mem = mRecordBuffer s
      /\ previewStopped s = false
      /\ enabled (mMsgEnabled s) CAMERA_MSG_VIDEO_FRAME = true
      /\ mRecordRunning s = true
  | _ => True
  end.

Definition is_callback (c : Call) : bool :=
  match c with
  | NotifyFn _ _ _ _ _ | DataFn _ _ _ _ | TimestampFn _ _ _ _ _ => true
  | _ => false
  end.

(** A callback that goes through the pointers [n], [d] and [t], whichever
    applies, with the cookie [u]. *)
Definition through (n d t u : pointer) (c : Call) : Prop :=
  match c with
  | NotifyFn fn _ _ _ user => fn = n /\ user = u
  | DataFn fn _ _ user => fn = d /\ user = u
  | TimestampFn fn _ _ _ user => fn = t /\ user = u
  | _ => True
  end.

(** The callbacks and the cookie the controller holds. *)
Definition installed (s : State) : pointer * pointer * pointer * pointer :=
  (mNotifyFn s, mDataFn s, mTimestampFn s, mUser s).

(** The preview buffer region. *)
Definition preview_region (s : State) :
  option MemoryHeapBase * option MemoryBase :=
  (mHeap s, mBuffer s).

(** A preview frame, if [c] is one, carries the buffer [b]. *)
Definition preview_frame_of (b : option MemoryBase) (c : Call) : Prop :=
  match c with
  | DataFn _ msg mem _ => msg = CAMERA_MSG_PREVIEW_FRAME -> mem = b
  | _ => True
  end.

(** **** The configuration held *)

(** The configuration [setParameters] stores for [params]. *)
Definition stored (params : CameraParameters.t) : CameraParameters.t :=
  set KEY_SUPPORTED_PREVIEW_FPS_RANGE supportedFpsRanges
    (setPreviewSize (fst (getPreviewSize params))
       (snd (getPreviewSize params)) params).

(** A configuration that [setParameters] accepts and stores as it is. *)
Definition settled (p : CameraParameters.t) : Prop :=
  getPreviewFormat p = Some "yuv422sp"
  /\ getPictureFormat p = Some "jpeg"
  /\ stored p = p.

(** The pointers [setParameters] hands to [strcmp], in the order of the
    calls: the preview format and, when that one is the supported one, the
    picture format. *)
Definition strcmp_arguments (params : CameraParameters.t)
  : list (option string) :=
  getPreviewFormat params
  :: (if differs (getPreviewFormat params) "yuv422sp" then []
      else [getPictureFormat params]).

(** [strcmp] is defined on strings: none of the pointers is null. *)
Definition strcmp_defined (params : CameraParameters.t) : bool :=
  forallb (fun a => bool_decide (is_Some a)) (strcmp_arguments params).

(** **** One more machine *)

(** A machine whose camera opens on the first node and then fails to
    initialise. *)
Definition stuck_camera : World :=
  {| open_result := fun _ _ _ _ => 3;
     init_result := fun _ => -1;
     start_result := fun _ => 0;
     jpeg_frame := fun _ => None;
     system_time := fun _ => 0;
     late_iterations := fun _ => 0%nat |}.

(** *** Proof tools *)

(** Unfolds the monad and the collaborators, and reads fields back from
    the assignments made to them. *)
Ltac fields :=
  cbn [fst snd negb
       mCameraId mParameters mHeap mBuffer mRecordHeap mRecordBuffer
       mPreviewFrameSize mRecordRunning previewStopped mPreviewThread
       mNotifyFn mDataFn mTimestampFn mUser mMsgEnabled calls
       set_mParameters set_mHeap set_mBuffer set_mRecordHeap
       set_mRecordBuffer set_mPreviewFrameSize set_mRecordRunning
       set_previewStopped set_mPreviewThread set_mNotifyFn set_mDataFn
       set_mTimestampFn set_mUser set_mMsgEnabled set_calls] in *.

Ltac step_m :=
  cbv beta iota delta
    [bind gets call modify when ret systemTime camera_Open camera_Init
     camera_StartStreaming camera_GrabJpegFrame new_MemoryHeapBase
     new_MemoryBase new_PreviewThread];
  fields.

(** Operations are shown to leave an observation alone by going along
    their binds and branches: the hints for that are collected in [frame],
    the lemmas about the monad and, as they are proved, the operations
    already dealt with.  Branches are taken apart, and assignments are
    checked by computation. *)
Create HintDb frame.

#[export] Hint Extern 3 (preserves _ (if ?b then _ else _)) =>
  destruct b : frame.
#[export] Hint Extern 3 (preserves _ (match ?x with _ => _ end)) =>
  destruct x : frame.
#[export] Hint Extern 1 (_ = _) => reflexivity : frame.

Ltac frame := auto 200 with frame.

(** Two keys of the container are different strings. *)
Ltac keys := let E := fresh in intros E; vm_compute in E; discriminate E.

End CameraHardware.

(* ===================================================================== *)
(** * Facts *)
(* ===================================================================== *)

(** ** [int] arithmetic *)

Section Int32Facts.
Import Int32.

Lemma wrap_id z : in_range z -> wrap z = z.
Proof.
  unfold in_range, wrap, INT_MIN, INT_MAX. intros H.
  rewrite Z.mod_small by lia. lia.
Qed.

Lemma wrap_in_range z : in_range (wrap z).
Proof.
  unfold in_range, wrap, INT_MIN, INT_MAX.
  pose proof (Z.mod_pos_bound (z + 2 ^ 31) (2 ^ 32) ltac:(lia)). lia.
Qed.

Lemma mul_mul a b c : mul (mul a b) c = wrap (a * b * c).
Proof.
  unfold mul, wrap. f_equal.
  rewrite (Z.mod_eq (a * b + 2 ^ 31)) by lia.
  set (q := (a * b + 2 ^ 31) / 2 ^ 32).
  replace ((a * b + 2 ^ 31 - 2 ^ 32 * q - 2 ^ 31) * c + 2 ^ 31)
    with (a * b * c + 2 ^ 31 + (- q * c) * 2 ^ 32) by lia.
  apply Z_mod_plus_full.
Qed.

Lemma mul_mul_exact a b c :
  in_range (a * b * c) -> mul (mul a b) c = a * b * c.
Proof. intros H. rewrite mul_mul. now apply wrap_id. Qed.

End Int32Facts.

(** ** [strtol] reads back what [%d] writes *)

Section LibcFacts.
Import Libc.

Lemma uint_value_pos u acc :
  uint_value u (Z.pos acc) = Z.pos (Pos.of_uint_acc u acc).
Proof.
  revert acc. induction u; intros acc; simpl; try reflexivity;
    rewrite <- IHu; f_equal; lia.
Qed.

Lemma uint_value_0 u : uint_value u 0 = Z.of_uint u.
Proof.
  unfold Z.of_uint.
  induction u; simpl; try reflexivity; try assumption;
    match goal with
    | |- uint_value _ ?k = _ => change k with (Z.pos (Z.to_pos k))
    end;
    rewrite uint_value_pos; reflexivity.
Qed.

Lemma digits_stop base s acc :
  starts_with_digit base s = false -> digits base s acc = (acc, s).
Proof.
  destruct s as [|c r]; [reflexivity|]. simpl. unfold is_digit.
  destruct (digit_val c); [|reflexivity]. intros ->. reflexivity.
Qed.

Lemma digits_uint u rest acc :
  digits 10 (NilEmpty.string_of_uint u ++ rest) acc
  = digits 10 rest (uint_value u acc).
Proof.
  revert acc. induction u; intros acc; simpl NilEmpty.string_of_uint;
    [reflexivity|..]; cbn [append uint_value]; rewrite <- IHu; reflexivity.
Qed.

Lemma uint_text_digit u rest :
  u <> Decimal.Nil ->
  starts_with_digit 10 (NilEmpty.string_of_uint u ++ rest) = true.
Proof. destruct u; intros H; [congruence|..]; reflexivity. Qed.

Lemma decimal_digit_cases c :
  is_digit 10 c = true ->
  In c ["0"; "1"; "2"; "3"; "4"; "5"; "6"; "7"; "8"; "9"]%char.
Proof.
  intros H. destruct c as [[] [] [] [] [] [] [] []];
    vm_compute in H; try discriminate H; simpl; tauto.
Qed.

Lemma strtol_unsigned s :
  starts_with_digit 10 s = true ->
  strtol s 10 = (clamp (fst (digits 10 s 0)), snd (digits 10 s 0)).
Proof.
  destruct s as [|c r]; [discriminate|].
  intros H; cbn [starts_with_digit] in H.
  apply decimal_digit_cases in H; simpl in H;
    repeat (destruct H as [<- | H]); [.. | contradiction];
    try (unfold strtol; cbn [skip_space];
         destruct (digits 10 _ 0) eqn:E; cbv - [digits clamp];
         rewrite E; reflexivity).
  destruct r as [|x r']; unfold strtol;
    destruct (digits 10 _ 0) eqn:E; cbv - [digits clamp];
    rewrite E; reflexivity.
Qed.

Lemma strtol_negative s :
  starts_with_digit 10 s = true ->
  strtol (String "-" s) 10
  = (clamp (- fst (digits 10 s 0)), snd (digits 10 s 0)).
Proof.
  destruct s as [|c r]; [discriminate|].
  intros H; cbn [starts_with_digit] in H.
  apply decimal_digit_cases in H; simpl in H;
    repeat (destruct H as [<- | H]); [.. | contradiction];
    try (unfold strtol;
         destruct (digits 10 _ 0) eqn:E; cbv - [digits clamp Z.opp];
         rewrite E; reflexivity).
  destruct r as [|x r']; unfold strtol;
    destruct (digits 10 _ 0) eqn:E; cbv - [digits clamp Z.opp];
    rewrite E; reflexivity.
Qed.

Lemma clamp_id z : Int32.in_range z -> clamp z = z.
Proof. unfold clamp, LONG_MIN, LONG_MAX, Int32.in_range. lia. Qed.

Lemma clamp_in_range z : Int32.in_range (clamp z).
Proof.
  unfold clamp, LONG_MIN, LONG_MAX, Int32.in_range, Int32.INT_MIN,
    Int32.INT_MAX.
  lia.
Qed.

Lemma show_int_text z :
  exists u, u <> Decimal.Nil /\ Z.of_uint u = Z.abs z /\
    show_int z = (if z <? 0 then "-" else "") ++ NilEmpty.string_of_uint u.
Proof.
  unfold show_int. destruct z as [|p|p].
  - exists (Decimal.D0 Decimal.Nil). repeat split. discriminate.
  - exists (Pos.to_uint p).
    pose proof (Unsigned.to_uint_nonnil p) as Hn. repeat split; [assumption|..].
    + change (Z.of_uint (Pos.to_uint p)) with (Z.of_int (Z.to_int (Z.pos p))).
      now rewrite DecimalZ.of_to.
    + simpl. unfold NilZero.string_of_uint. now destruct (Pos.to_uint p).
  - exists (Pos.to_uint p).
    pose proof (Unsigned.to_uint_nonnil p) as Hn. repeat split; [assumption|..].
    + change (Z.of_uint (Pos.to_uint p)) with (Z.of_int (Z.to_int (Z.pos p))).
      now rewrite DecimalZ.of_to.
    + simpl. unfold NilZero.string_of_uint. now destruct (Pos.to_uint p).
Qed.

(** Reading back what [%d] wrote. *)
Lemma strtol_show_int z rest :
  Int32.in_range z ->
  starts_with_digit 10 rest = false ->
  strtol (show_int z ++ rest) 10 = (z, rest).
Proof.
  intros Hz Hrest.
  destruct (show_int_text z) as (u & Hu & Hval & ->).
  assert (Hd : digits 10 (NilEmpty.string_of_uint u ++ rest) 0
               = (Z.abs z, rest)).
  { rewrite digits_uint, digits_stop by assumption.
    now rewrite uint_value_0, Hval. }
  destruct (z <? 0) eqn:Hs; cbv iota; cbn [append].
  - change (("-" ++ ?x) ++ rest) with (String "-" (x ++ rest)).
    rewrite strtol_negative by (apply uint_text_digit; assumption).
    rewrite Hd. cbn [fst snd]. apply Z.ltb_lt in Hs.
    rewrite clamp_id; [f_equal; lia|].
    replace (- Z.abs z) with z by lia. assumption.
  - change (("" ++ ?x) ++ rest) with (x ++ rest).
    rewrite strtol_unsigned by (apply uint_text_digit; assumption).
    rewrite Hd. cbn [fst snd]. apply Z.ltb_ge in Hs.
    rewrite clamp_id; [f_equal; lia|].
    replace (Z.abs z) with z by lia. assumption.
Qed.

Lemma strtol_in_range s base : Int32.in_range (fst (strtol s base)).
Proof.
  unfold strtol.
  repeat match goal with
         | |- context [let '(_, _) := ?x in _] => destruct x
         | |- context [if ?b then _ else _] => destruct b
         end; cbn [fst]; try apply clamp_in_range;
    unfold Int32.in_range, Int32.INT_MIN, Int32.INT_MAX; lia.
Qed.
End LibcFacts.

(** ** The configuration container *)

Section ParameterFacts.
Import Libc CameraParameters.

Lemma show_int_nonempty z : show_int z <> "".
Proof.
  destruct (show_int_text z) as (u & Hu & _ & ->).
  destruct (z <? 0); [discriminate|].
  destruct u; try congruence; discriminate.
Qed.

Lemma get_set k v (p : CameraParameters.t) :
  v <> "" -> get k (set k v p) = Some v.
Proof.
  intros Hv. unfold get, set. rewrite lookup_insert_eq.
  destruct (String.eqb_spec v ""); congruence.
Qed.

Lemma get_set_ne k k' v (p : CameraParameters.t) :
  k <> k' -> get k' (set k v p) = get k' p.
Proof. intros Hk. unfold get, set. now rewrite lookup_insert_ne. Qed.

Lemma parse_pair_show w h :
  Int32.in_range w -> Int32.in_range h ->
  parse_pair (show_int w ++ "x" ++ show_int h) = Some (w, h).
Proof.
  intros Hw Hh. unfold parse_pair.
  rewrite strtol_show_int by (assumption || reflexivity).
  change ("x" ++ show_int h) with (String "x" (show_int h)). cbv iota beta.
  replace (show_int h) with (show_int h ++ "") at 1.
  - now rewrite strtol_show_int.
  - clear. induction (show_int h) as [|c r IH]; [reflexivity|].
    change (String c r ++ "") with (String c (r ++ "")). now rewrite IH.
Qed.

Lemma getSize_setSize k w h (p : CameraParameters.t) :
  Int32.in_range w -> Int32.in_range h ->
  getSize k (setSize k w h p) = (w, h).
Proof.
  intros Hw Hh. unfold getSize, setSize. rewrite get_set.
  - now rewrite parse_pair_show.
  - pose proof (show_int_nonempty w).
    destruct (show_int w); [congruence|discriminate].
Qed.

Lemma getSize_in_range k (p : CameraParameters.t) :
  Int32.in_range (fst (getSize k p)) /\ Int32.in_range (snd (getSize k p)).
Proof.
  assert (Hm : Int32.in_range (-1)) by (cbv; split; discriminate).
  unfold getSize. destruct (get k p) as [v|]; [|now split].
  unfold parse_pair.
  pose proof (strtol_in_range v 10) as H1.
  destruct (strtol v 10) as [w rest]. 
  destruct rest as [|c rest']; [now split|].
  destruct (Ascii.eqb_spec c "x") as [->|Hc].
  - split; [exact H1 | apply strtol_in_range].
  - destruct c as [[] [] [] [] [] [] [] []]; now split.
Qed.

(** Writing a size back under the key it was read from does not change
    what is read. *)
Lemma getSize_rewrite k (p q : CameraParameters.t) :
  getSize k (setSize k (fst (getSize k p)) (snd (getSize k p)) q)
  = getSize k p.
Proof.
  destruct (getSize_in_range k p) as [Hw Hh].
  rewrite getSize_setSize by assumption. now destruct (getSize k p).
Qed.

End ParameterFacts.

(** ** The controller *)

Import CameraParameters CameraHardware.

(** *** Message kinds *)

Section MessageKinds.

Lemma enabled_lor mask kind :
  kind <> 0 -> enabled (Z.lor mask kind) kind = true.
Proof.
  intros Hk. unfold enabled.
  rewrite Z.land_lor_distr_l, Z.land_diag.
  destruct (Z.eqb_spec (Z.lor (Z.land mask kind) kind) 0) as [E|E];
    [|reflexivity].
  apply Z.lor_eq_0_iff in E. tauto.
Qed.

Lemma enabled_land_lnot mask kind :
  enabled (Z.land mask (Z.lnot kind)) kind = false.
Proof.
  unfold enabled.
  rewrite <- Z.land_assoc, (Z.land_comm (Z.lnot kind)), Z.land_lnot_diag,
    Z.land_0_r.
  reflexivity.
Qed.

Lemma enabled_lor_other mask kind other :
  Z.land kind other = 0 ->
  enabled (Z.lor mask kind) other = enabled mask other.
Proof.
  intros H. unfold enabled.
  now rewrite Z.land_lor_distr_l, H, Z.lor_0_r.
Qed.

Lemma enabled_land_lnot_other mask kind other :
  Z.land kind other = 0 ->
  enabled (Z.land mask (Z.lnot kind)) other = enabled mask other.
Proof.
  intros H. unfold enabled. do 2 f_equal.
  rewrite <- Z.land_assoc. f_equal.
  apply Z.bits_inj'. intros n Hn.
  rewrite Z.land_spec, Z.lnot_spec by assumption.
  assert (Hb : Z.testbit (Z.land kind other) n = false)
    by (rewrite H; apply Z.bits_0).
  rewrite Z.land_spec in Hb.
  destruct (Z.testbit kind n), (Z.testbit other n); cbn in *; congruence.
Qed.

(** [enableMsgType] makes [msgTypeEnabled] answer yes, [disableMsgType]
    makes it answer no, and neither touches a kind with other bits. *)
Lemma msgTypeEnabled_enableMsgType kind s :
  kind <> 0 -> fst (msgTypeEnabled kind (snd (enableMsgType kind s))) = true.
Proof. intros Hk. cbn. now apply enabled_lor. Qed.

Lemma msgTypeEnabled_disableMsgType kind s :
  fst (msgTypeEnabled kind (snd (disableMsgType kind s))) = false.
Proof. cbn. apply enabled_land_lnot. Qed.

Lemma msgTypeEnabled_other kind other s :
  Z.land kind other = 0 ->
  fst (msgTypeEnabled other (snd (enableMsgType kind s)))
  = fst (msgTypeEnabled other s)
  /\ fst (msgTypeEnabled other (snd (disableMsgType kind s)))
     = fst (msgTypeEnabled other s).
Proof.
  intros H. cbn. split;
    [now apply enabled_lor_other | now apply enabled_land_lnot_other].
Qed.

End MessageKinds.

Section ControllerFacts.

Variable W : World.

(** *** The log only grows by what was added *)

Lemma added_app s l : added s (calls s ++ l) = l.
Proof.
  unfold added. rewrite skipn_app, skipn_all, Nat.sub_diag. reflexivity.
Qed.

Lemma added_nil s : added s (calls s) = [].
Proof. unfold added. apply skipn_all. Qed.

(** *** One iteration of the preview loop *)

(** What an iteration appends to the log when preview is not stopped. *)
Lemma previewThread_running s :
  previewStopped s = false ->
  previewThread W s =
    (NO_ERROR,
     set_calls
       (calls s ++
        CamGrabPreviewFrame (mHeap s) ::
        (if enabled (mMsgEnabled s) CAMERA_MSG_PREVIEW_FRAME
            || enabled (mMsgEnabled s) CAMERA_MSG_VIDEO_FRAME
         then
           (if enabled (mMsgEnabled s) CAMERA_MSG_VIDEO_FRAME
               && mRecordRunning s
            then
              [Yuyv422ToYuv420sp (mHeap s) (mRecordHeap s)
                 (fst (getPreviewSize (mParameters s)))
                 (snd (getPreviewSize (mParameters s)));
               TimestampFn (mTimestampFn s)
                 (system_time W
                    (calls s ++
                     [CamGrabPreviewFrame (mHeap s);
                      Yuyv422ToYuv420sp (mHeap s) (mRecordHeap s)
                        (fst (getPreviewSize (mParameters s)))
                        (snd (getPreviewSize (mParameters s)))]))
                 CAMERA_MSG_VIDEO_FRAME (mRecordBuffer s) (mUser s)]
            else []) ++
           [DataFn (mDataFn s) CAMERA_MSG_PREVIEW_FRAME (mBuffer s) (mUser s)]
         else [])) s).
Proof.
  intros Hrun.
  destruct (enabled (mMsgEnabled s) CAMERA_MSG_PREVIEW_FRAME) eqn:Ep;
    destruct (enabled (mMsgEnabled s) CAMERA_MSG_VIDEO_FRAME) eqn:Ev;
    destruct (mRecordRunning s) eqn:Er;
    unfold previewThread;
    repeat (step_m; rewrite ?Hrun, ?Ep, ?Ev, ?Er; cbn [orb andb]);
    rewrite <- ?app_assoc; reflexivity.
Qed.

(** A stopped iteration does nothing at all. *)
Lemma previewThread_stopped s :
  previewStopped s = true -> previewThread W s = (NO_ERROR, s).
Proof.
  intros Hstop.
  unfold previewThread. step_m. rewrite Hstop. reflexivity.
Qed.

Lemma threadLoop_stopped s :
  previewStopped s = true -> threadLoop W s = (tt, s).
Proof.
  intros Hstop. unfold threadLoop, bind.
  rewrite previewThread_stopped by assumption. reflexivity.
Qed.

Lemma late_iterations_stopped n s :
  previewStopped s = true -> repeat_m n (threadLoop W) s = (tt, s).
Proof.
  intros Hstop. induction n as [|n IH]; [reflexivity|].
  cbn [repeat_m]. unfold bind.
  rewrite threadLoop_stopped by assumption. exact IH.
Qed.

(** *** Probing the device nodes *)

Lemma probe_from n a w h r s :
  (0 < n)%nat ->
  exists k, (1 <= k <= n)%nat /\
    snd (probe W n (Z.of_nat a) w h r s)
    = set_calls (calls s ++ opens a k w h) s /\
    (fst (probe W n (Z.of_nat a) w h r s) < 0 -> k = n).
Proof.
  revert a r s. induction n as [|n IH]; intros a r s Hn; [lia|].
  cbn [probe]. step_m.
  destruct (open_result W (calls s) (devnode (Z.of_nat a)) w h >=? 0) eqn:Hr.
  - exists 1%nat. step_m. repeat split; lia.
  - destruct n as [|n].
    + exists 1%nat. cbn [probe]. step_m. repeat split; lia.
    + replace (Z.of_nat a + 1) with (Z.of_nat (S a)) by lia.
      destruct (IH (S a)
                  (open_result W (calls s) (devnode (Z.of_nat a)) w h)
                  (set_calls
                     (calls s ++
                      [CamOpen (devnode (Z.of_nat a)) w h PIXEL_FORMAT]) s))
        as (k & Hk & Hs & Hf); [lia|].
      exists (S k). split; [lia|]. split.
      * rewrite Hs. fields. unfold opens. cbn [seq map].
        rewrite <- app_assoc. reflexivity.
      * intros Hneg. f_equal. apply Hf. exact Hneg.
Qed.

Lemma probe_spec w h s :
  exists k, (1 <= k <= 10)%nat /\
    snd (probe W 10 0 w h 0 s) = set_calls (calls s ++ probes k w h) s /\
    (fst (probe W 10 0 w h 0 s) < 0 -> k = 10%nat).
Proof.
  destruct (probe_from 10 0 w h 0 s) as (k & Hk & Hs & Hf); [lia|].
  exists k. auto.
Qed.

(** *** Preview start and stop *)

Lemma startPreview_running s :
  is_Some (mPreviewThread s) -> startPreview W s = (INVALID_OPERATION, s).
Proof.
  intros [t Ht]. unfold startPreview. step_m. rewrite Ht. reflexivity.
Qed.

(** A start that reports success went all the way. *)
Lemma startPreview_success s :
  fst (startPreview W s) = NO_ERROR ->
  let width := fst (getPreviewSize (mParameters s)) in
  let height := snd (getPreviewSize (mParameters s)) in
  let size := Int32.mul (Int32.mul width height) 2 in
  exists k, (1 <= k <= 10)%nat /\
    let heap := {| heap_id := length (calls s ++ probes k width height);
                   heap_size := size |} in
    snd (startPreview W s) =
      set_mPreviewThread
        (Some (length (calls s ++ probes k width height
                       ++ [NewMemoryHeapBase size; CamInit;
                           CamStartStreaming])))
        (set_calls
           (calls s ++ probes k width height
            ++ [NewMemoryHeapBase size; CamInit; CamStartStreaming;
                ThreadRun (length (calls s ++ probes k width height
                                   ++ [NewMemoryHeapBase size; CamInit;
                                       CamStartStreaming]))])
           (set_previewStopped false
              (set_mBuffer
                 (Some {| mem_heap := Some heap; mem_offset := 0;
                          mem_size := size |})
                 (set_mHeap (Some heap)
                    (set_mPreviewFrameSize size s))))).
Proof.
  cbv zeta. unfold startPreview.
  destruct (mPreviewThread s) as [t|] eqn:Ht; step_m; rewrite Ht;
    [discriminate|].
  destruct (probe_spec (fst (getPreviewSize (mParameters s)))
              (snd (getPreviewSize (mParameters s))) s)
    as (k & Hk & Hs & _).
  destruct (fst (probe W 10 0 _ _ 0 s) <? 0); [discriminate|].
  rewrite Hs. step_m.
  match goal with
  | |- context [negb (?r =? 0)] => destruct (Z.eqb_spec r 0) as [Hi|Hi]
  end; step_m; [|intros E; unfold NO_ERROR in E; congruence].
  match goal with
  | |- context [negb (?r =? 0)] => destruct (Z.eqb_spec r 0) as [Hj|Hj]
  end; step_m; [|intros E; unfold NO_ERROR in E; congruence].
  intros _. exists k. split; [exact Hk|].
  repeat rewrite <- app_assoc. reflexivity.
Qed.

(** With a thread to join: flag, join, teardown, handle.  The iterations
    the thread still starts find the flag set and add nothing. *)
Lemma stopPreview_running s t :
  mPreviewThread s = Some t ->
  stopPreview W s =
    (tt,
     set_mPreviewThread None
       (set_calls
          (calls s ++
           [ThreadRequestExitAndWait t; CamUninit; CamStopStreaming;
            CamClose])
          (set_previewStopped true s))).
Proof.
  intros Ht. unfold stopPreview, requestExitAndWait. step_m. rewrite Ht.
  step_m. rewrite late_iterations_stopped by reflexivity. step_m.
  rewrite Ht. cbn. repeat rewrite <- app_assoc. reflexivity.
Qed.

(** Without one: only the flag is written. *)
Lemma stopPreview_idle s :
  mPreviewThread s = None ->
  stopPreview W s = (tt, set_previewStopped true s).
Proof.
  intros Ht. unfold stopPreview. step_m. rewrite Ht. step_m. rewrite Ht.
  cbn. destruct s; cbn in *; subst; reflexivity.
Qed.

(** *** Recording *)

Lemma startRecording_spec s :
  let size := Int32.div (Int32.mul (mPreviewFrameSize s) 3) 4 in
  let heap := {| heap_id := length (calls s); heap_size := size |} in
  startRecording s =
    (NO_ERROR,
     set_mRecordRunning true
       (set_mRecordBuffer
          (Some {| mem_heap := Some heap; mem_offset := 0; mem_size := size |})
          (set_mRecordHeap (Some heap)
             (set_calls (calls s ++ [NewMemoryHeapBase size]) s)))).
Proof. reflexivity. Qed.

(** *** Still capture *)

Lemma pictureThread_spec s :
  let width := fst (getPreviewSize (mParameters s)) in
  let height := snd (getPreviewSize (mParameters s)) in
  let shutter :=
    if enabled (mMsgEnabled s) CAMERA_MSG_SHUTTER
    then [NotifyFn (mNotifyFn s) CAMERA_MSG_SHUTTER 0 0 (mUser s)] else [] in
  exists k, (1 <= k <= 10)%nat /\
    ((fst (pictureThread W s) = -1 /\ k = 10%nat /\
      snd (pictureThread W s)
      = set_calls (calls s ++ shutter ++ probes k width height) s)
     \/
     (fst (pictureThread W s) = NO_ERROR /\
      snd (pictureThread W s)
      = set_calls (calls s ++ still_calls W s k) s)).
Proof.
  cbv zeta. unfold pictureThread, still_calls.
  destruct (enabled (mMsgEnabled s) CAMERA_MSG_SHUTTER) eqn:Es;
    destruct (enabled (mMsgEnabled s) CAMERA_MSG_COMPRESSED_IMAGE) eqn:Ec;
    step_m; rewrite ?Es; step_m;
    match goal with
    | |- context [probe W 10 0 ?w ?h 0 ?st] =>
        destruct (probe_spec w h st) as (k & Hk & Hs & Hf);
        exists k; split; [exact Hk|];
        destruct (Z.ltb_spec (fst (probe W 10 0 w h 0 st)) 0) as [Hneg|Hpos];
        [left; rewrite Hs; step_m; rewrite (Hf Hneg), <- ?app_assoc;
         repeat split; reflexivity
        |right; rewrite Hs; repeat (step_m; rewrite ?Ec);
         rewrite <- ?app_assoc; cbn [app]; rewrite <- ?app_assoc;
         split; reflexivity]
    end.
Qed.

(** *** What an operation leaves alone *)

Lemma preserves_ret {A B} (f : State -> B) (a : A) : preserves f (ret a).
Proof. intros s. reflexivity. Qed.

Lemma preserves_gets {A B} (f : State -> B) (g : State -> A) :
  preserves f (gets g).
Proof. intros s. reflexivity. Qed.

Lemma preserves_modify {B} (f : State -> B) (g : State -> State) :
  (forall s, f (g s) = f s) -> preserves f (modify g).
Proof. intros H s. apply H. Qed.

Lemma preserves_bind {A A' B} (f : State -> B) (m : M A) (k : A -> M A') :
  preserves f m -> (forall a, preserves f (k a)) -> preserves f (bind m k).
Proof.
  intros Hm Hk s. unfold bind. rewrite Hk. apply Hm.
Qed.

Lemma preserves_when {B} (f : State -> B) b (m : M unit) :
  preserves f m -> preserves f (when b m).
Proof. intros Hm. destruct b; [exact Hm | apply preserves_ret]. Qed.

Lemma preserves_repeat {B} (f : State -> B) n (m : M unit) :
  preserves f m -> preserves f (repeat_m n m).
Proof.
  intros Hm. induction n as [|n IH]; [apply preserves_ret|].
  cbn [repeat_m]. apply preserves_bind; auto.
Qed.

#[local] Hint Resolve preserves_ret preserves_gets preserves_modify
  preserves_bind preserves_when preserves_repeat : frame.

(** The loop iteration, the probe, the join and the still-capture cycle
    only write the log: they leave alone whatever does not read it. *)
Section LogOnly.

Context {B : Type} (f : State -> B).
Hypothesis f_calls : forall v s, f (set_calls v s) = f s.

Lemma call_preserves c : preserves f (call c).
Proof. unfold call. frame. Qed.

#[local] Hint Resolve call_preserves : frame.

Lemma probe_preserves n i w h r : preserves f (probe W n i w h r).
Proof.
  revert i r. induction n as [|n IH]; intros i r; cbn [probe];
    unfold camera_Open; frame.
Qed.

Lemma previewThread_preserves : preserves f (previewThread W).
Proof. unfold previewThread, systemTime. frame. Qed.

#[local] Hint Resolve probe_preserves previewThread_preserves : frame.

Lemma threadLoop_preserves : preserves f (threadLoop W).
Proof. unfold threadLoop. frame. Qed.

#[local] Hint Resolve threadLoop_preserves : frame.

Lemma requestExitAndWait_preserves t : preserves f (requestExitAndWait W t).
Proof. unfold requestExitAndWait. frame. Qed.

Lemma pictureThread_preserves : preserves f (pictureThread W).
Proof.
  unfold pictureThread, camera_Init, camera_StartStreaming,
    camera_GrabJpegFrame.
  frame.
Qed.

End LogOnly.

#[local] Hint Resolve call_preserves probe_preserves previewThread_preserves
  threadLoop_preserves requestExitAndWait_preserves pictureThread_preserves
  : frame.

Lemma startPreview_region : preserves record_region (startPreview W).
Proof.
  unfold startPreview, camera_Init, camera_StartStreaming, new_PreviewThread,
    new_MemoryHeapBase, new_MemoryBase.
  frame.
Qed.

Lemma stopPreview_region : preserves record_region (stopPreview W).
Proof. unfold stopPreview. frame. Qed.

#[local] Hint Resolve stopPreview_region : frame.

Lemma takePicture_region : preserves record_region (takePicture W).
Proof. unfold takePicture. frame. Qed.

Lemma setParameters_region p : preserves record_region (setParameters p).
Proof. unfold setParameters. frame. Qed.

(** Only [startRecording] replaces the record buffer region. *)
Lemma exec_region op s :
  is_StartRecording op = false ->
  record_region (exec W op s) = record_region s.
Proof.
  destruct op; intros Hop; try discriminate; cbn [exec].
  - reflexivity.
  - reflexivity.
  - reflexivity.
  - apply startPreview_region.
  - apply stopPreview_region.
  - reflexivity.
  - apply takePicture_region.
  - apply setParameters_region.
  - destruct (mPreviewThread s); [|reflexivity].
    apply threadLoop_preserves. reflexivity.
Qed.

Lemma run_region ops s :
  forallb (fun op => negb (is_StartRecording op)) ops = true ->
  record_region (run W ops s) = record_region s.
Proof.
  revert s. induction ops as [|op ops IH]; intros s Hops; [reflexivity|].
  cbn [forallb] in Hops. apply andb_true_iff in Hops as [Hop Hops].
  unfold run. cbn [fold_left]. fold (run W ops (exec W op s)).
  rewrite IH by assumption. apply exec_region.
  now destruct (is_StartRecording op).
Qed.

End ControllerFacts.

(** ** The loop over the device nodes, and what hangs on it *)

Section Probing.

Local Open Scope list_scope.

Variable W : World.

Lemma opens_S a k w h :
  opens a (S k) w h
  = CamOpen (devnode (Z.of_nat a)) w h PIXEL_FORMAT :: opens (S a) k w h.
Proof. reflexivity. Qed.

Lemma opens_snoc a k w h :
  opens a (S k) w h
  = opens a k w h ++ [CamOpen (devnode (Z.of_nat (a + k))) w h PIXEL_FORMAT].
Proof.
  unfold opens. rewrite seq_S, map_app. reflexivity.
Qed.

(** The loop over the nodes in full: which nodes it tries, what each of
    them answered, and what it returns. *)
Lemma probe_results n a w h r s :
  (0 < n)%nat ->
  exists k, (1 <= k <= n)%nat
    /\ snd (probe W n (Z.of_nat a) w h r s)
       = set_calls (calls s ++ opens a k w h) s
    /\ fst (probe W n (Z.of_nat a) w h r s)
       = open_result W (calls s ++ opens a (k - 1) w h)
           (devnode (Z.of_nat (a + (k - 1)))) w h
    /\ (forall j, (j < k - 1)%nat ->
          open_result W (calls s ++ opens a j w h)
            (devnode (Z.of_nat (a + j))) w h < 0)
    /\ (fst (probe W n (Z.of_nat a) w h r s) < 0 -> k = n).
Proof.
  revert a r s. induction n as [|n IH]; intros a r s Hn; [lia|].
  cbn [probe]. step_m.
  destruct (open_result W (calls s) (devnode (Z.of_nat a)) w h >=? 0) eqn:Hr.
  - exists 1%nat. step_m. cbn [Nat.sub opens seq map].
    rewrite app_nil_r, Nat.add_0_r.
    repeat split; lia.
  - assert (Hneg : open_result W (calls s) (devnode (Z.of_nat a)) w h < 0)
      by (rewrite Z.geb_leb in Hr; apply Z.leb_gt in Hr; exact Hr).
    destruct n as [|n].
    + exists 1%nat. cbn [probe]. step_m. cbn [Nat.sub opens seq map].
      rewrite app_nil_r, Nat.add_0_r. repeat split; lia.
    + replace (Z.of_nat a + 1) with (Z.of_nat (S a)) by lia.
      destruct (IH (S a)
                  (open_result W (calls s) (devnode (Z.of_nat a)) w h)
                  (set_calls
                     (calls s ++
                      [CamOpen (devnode (Z.of_nat a)) w h PIXEL_FORMAT]) s))
        as (k & Hk & Hs & Hv & Hfail & Hf); [lia|].
      fields.
      assert (Hshift : forall j,
                 (calls s ++ [CamOpen (devnode (Z.of_nat a)) w h PIXEL_FORMAT])
                 ++ opens (S a) j w h
                 = calls s ++ opens a (S j) w h).
      { intros j. now rewrite opens_S, <- app_assoc. }
      exists (S k). split; [lia|]. split; [|split; [|split]].
      * rewrite Hs. fields. now rewrite Hshift.
      * rewrite Hv, Hshift.
        replace (S k - 1)%nat with (S (k - 1)) by lia.
        now replace (a + S (k - 1))%nat with (S a + (k - 1))%nat by lia.
      * intros j Hj. destruct j as [|j].
        -- cbn [opens seq map]. rewrite app_nil_r, Nat.add_0_r. exact Hneg.
        -- rewrite <- Hshift.
           replace (a + S j)%nat with (S a + j)%nat by lia.
           apply Hfail. lia.
      * intros Hlt. f_equal. apply Hf. exact Hlt.
Qed.

End Probing.

Section Outcomes.

Local Open Scope list_scope.

Variable W : World.

(** Every way [startPreview] can go on a controller that holds no loop. *)
Lemma startPreview_cases s :
  mPreviewThread s = None ->
  let width := fst (getPreviewSize (mParameters s)) in
  let height := snd (getPreviewSize (mParameters s)) in
  let size := Int32.mul (Int32.mul width height) 2 in
  exists k, (1 <= k <= 10)%nat
    /\ (forall j, (j < k - 1)%nat ->
          open_result W (calls s ++ probes j width height)
            (devnode (Z.of_nat j)) width height < 0)
    /\ let log := calls s ++ probes k width height in
       let opened :=
         open_result W (calls s ++ probes (k - 1) width height)
           (devnode (Z.of_nat (k - 1))) width height in
       let init := init_result W (log ++ [NewMemoryHeapBase size]) in
       let start :=
         start_result W (log ++ [NewMemoryHeapBase size; CamInit]) in
       (opened < 0 /\ k = 10%nat
        /\ startPreview W s = (-1, set_calls log s))
       \/ (0 <= opened /\ init <> 0
           /\ startPreview W s = (init, node_opened s k [CamInit; CamClose]))
       \/ (0 <= opened /\ init = 0 /\ start <> 0
           /\ startPreview W s
              = (start,
                 node_opened s k
                   [CamInit; CamStartStreaming; CamUninit; CamClose]))
       \/ (0 <= opened /\ init = 0 /\ start = 0
           /\ startPreview W s
              = (NO_ERROR,
                 set_mPreviewThread
                   (Some (length (log ++ [NewMemoryHeapBase size; CamInit;
                                          CamStartStreaming])))
                   (set_previewStopped false
                      (node_opened s k
                         [CamInit; CamStartStreaming;
                          ThreadRun
                            (length
                               (log ++ [NewMemoryHeapBase size; CamInit;
                                        CamStartStreaming]))])))).
Proof.
  intros Ht. cbv zeta.
  destruct (probe_results W 10 0 (fst (getPreviewSize (mParameters s)))
              (snd (getPreviewSize (mParameters s))) 0 s)
    as (k & Hk & Hs & Hv & Hfail & Hf); [lia|].
  change (opens 0) with probes in *. cbn [Nat.add] in *.
  exists k. split; [exact Hk|]. split; [exact Hfail|].
  unfold startPreview, node_opened. step_m. rewrite Ht.
  change (Z.of_nat 0) with 0 in *. rewrite Hs, Hv.
  match goal with
  | |- context [?r <? 0] => destruct (Z.ltb_spec r 0) as [Hneg|Hpos]
  end.
  - left. rewrite <- Hv in Hneg. specialize (Hf Hneg). subst k.
    rewrite Hv in Hneg. split; [exact Hneg|]. split; [reflexivity|].
    step_m. reflexivity.
  - right. step_m.
    match goal with
    | |- context [negb (?r =? 0)] => destruct (Z.eqb_spec r 0) as [Hi|Hi]
    end; step_m.
    + right.
      match goal with
      | |- context [negb (?r =? 0)] => destruct (Z.eqb_spec r 0) as [Hj|Hj]
      end; step_m.
      * right. rewrite <- !app_assoc in *. cbn [app] in *.
        repeat split; try assumption. 
      * left. rewrite <- !app_assoc in *. cbn [app] in *.
        repeat split; try assumption.
    + left. rewrite <- !app_assoc in *. cbn [app] in *.
      repeat split; try assumption.
Qed.

(** Every way the still-capture cycle can go. *)
Lemma pictureThread_cases s :
  let width := fst (getPreviewSize (mParameters s)) in
  let height := snd (getPreviewSize (mParameters s)) in
  let shutter :=
    if enabled (mMsgEnabled s) CAMERA_MSG_SHUTTER
    then [NotifyFn (mNotifyFn s) CAMERA_MSG_SHUTTER 0 0 (mUser s)] else [] in
  exists k, (1 <= k <= 10)%nat
    /\ (forall j, (j < k - 1)%nat ->
          open_result W ((calls s ++ shutter) ++ probes j width height)
            (devnode (Z.of_nat j)) width height < 0)
    /\ let opened :=
         open_result W ((calls s ++ shutter) ++ probes (k - 1) width height)
           (devnode (Z.of_nat (k - 1))) width height in
       (opened < 0 /\ k = 10%nat
        /\ pictureThread W s
           = (-1, set_calls (calls s ++ shutter ++ probes k width height) s))
       \/ (0 <= opened
           /\ pictureThread W s
              = (NO_ERROR, set_calls (calls s ++ still_calls W s k) s)).
Proof.
  cbv zeta. unfold pictureThread, still_calls.
  destruct (enabled (mMsgEnabled s) CAMERA_MSG_SHUTTER) eqn:Es;
    destruct (enabled (mMsgEnabled s) CAMERA_MSG_COMPRESSED_IMAGE) eqn:Ec;
    step_m; rewrite ?Es; step_m;
    match goal with
    | |- context [probe W 10 0 ?w ?h 0 ?st] =>
        destruct (probe_results W 10 0 w h 0 st)
          as (k & Hk & Hs & Hv & Hfail & Hf); [lia|];
        change (opens 0) with probes in *; cbn [Nat.add] in *;
        change (Z.of_nat 0) with 0 in *; fields;
        rewrite ?app_nil_r in *;
        exists k; split; [exact Hk|]; split; [exact Hfail|];
        rewrite Hs, Hv;
        match goal with
        | |- context [?r <? 0] => destruct (Z.ltb_spec r 0) as [Hneg|Hpos]
        end;
        [left; rewrite <- Hv in Hneg; specialize (Hf Hneg); subst k;
         rewrite Hv in Hneg; split; [exact Hneg|]; split; [reflexivity|];
         step_m; rewrite <- ?app_assoc; reflexivity
        |right; split; [exact Hpos|];
         repeat (step_m; rewrite ?Ec);
         rewrite <- ?app_assoc; cbn [app]; rewrite <- ?app_assoc;
         reflexivity]
    end.
Qed.

End Outcomes.

Section FrameSize.

Local Open Scope list_scope.

Variable W : World.

#[local] Hint Resolve preserves_ret preserves_gets preserves_modify
  preserves_bind preserves_when preserves_repeat call_preserves
  probe_preserves previewThread_preserves threadLoop_preserves
  requestExitAndWait_preserves pictureThread_preserves : frame.

(** What it is for [startPreview] to get a node open, on the machine: one
    of the ten nodes is accepted, after all the nodes before it were
    refused. *)
Lemma opens_node_spec s :
  let width := fst (getPreviewSize (mParameters s)) in
  let height := snd (getPreviewSize (mParameters s)) in
  opens_node W s = true <->
  mPreviewThread s = None
  /\ exists k, (k < 10)%nat
       /\ 0 <= open_result W (calls s ++ probes k width height)
                 (devnode (Z.of_nat k)) width height
       /\ forall j, (j < k)%nat ->
            open_result W (calls s ++ probes j width height)
              (devnode (Z.of_nat j)) width height < 0.
Proof.
  cbv zeta. unfold opens_node.
  destruct (probe_results W 10 0 (fst (getPreviewSize (mParameters s)))
              (snd (getPreviewSize (mParameters s))) 0 s)
    as (k' & Hk' & _ & Hv & Hfail & Hf); [lia|].
  change (opens 0) with probes in *. cbn [Nat.add] in *.
  change (Z.of_nat 0) with 0 in *.
  destruct (mPreviewThread s) as [t|];
    [split; [discriminate|intros [E _]; discriminate E]|].
  rewrite Z.geb_le. split.
  - intros Hpos. split; [reflexivity|]. exists (k' - 1)%nat.
    split; [lia|]. rewrite <- Hv. split; [exact Hpos|exact Hfail].
  - intros (_ & k & Hk & Hacc & Href).
    destruct (Nat.lt_trichotomy k (k' - 1)) as [Hlt|[->|Hgt]].
    + specialize (Hfail k Hlt). lia.
    + rewrite Hv. exact Hacc.
    + specialize (Href (k' - 1)%nat Hgt). rewrite <- Hv in Href.
      specialize (Hf Href). lia.
Qed.

(** [startPreview] sets the frame size when it gets a node open, before
    it initialises the device, and not otherwise. *)
Lemma startPreview_frame_size s :
  mPreviewFrameSize (snd (startPreview W s))
  = if opens_node W s
    then Int32.mul
           (Int32.mul (fst (getPreviewSize (mParameters s)))
              (snd (getPreviewSize (mParameters s)))) 2
    else mPreviewFrameSize s.
Proof.
  unfold opens_node, startPreview. step_m.
  destruct (mPreviewThread s) as [t|]; [reflexivity|].
  destruct (probe_spec W (fst (getPreviewSize (mParameters s)))
              (snd (getPreviewSize (mParameters s))) s)
    as (k & _ & Hs & _).
  rewrite Z.geb_leb.
  destruct (Z.ltb_spec (fst (probe W 10 0 (fst (getPreviewSize (mParameters s)))
                               (snd (getPreviewSize (mParameters s))) 0 s)) 0)
    as [Hneg|Hpos].
  - rewrite (proj2 (Z.leb_gt _ _) Hneg). rewrite Hs. reflexivity.
  - rewrite (proj2 (Z.leb_le _ _) Hpos). rewrite Hs. step_m.
    match goal with
    | |- context [negb (?r =? 0)] => destruct (Z.eqb_spec r 0)
    end; step_m; [|reflexivity].
    match goal with
    | |- context [negb (?r =? 0)] => destruct (Z.eqb_spec r 0)
    end; step_m; reflexivity.
Qed.

(** A [startPreview] that reports success has got a node open. *)
Lemma startPreview_success_opens s :
  fst (startPreview W s) = NO_ERROR -> opens_node W s = true.
Proof.
  unfold opens_node, startPreview. step_m.
  destruct (mPreviewThread s) as [t|]; [discriminate|].
  rewrite Z.geb_leb.
  destruct (Z.ltb_spec (fst (probe W 10 0 (fst (getPreviewSize (mParameters s)))
                               (snd (getPreviewSize (mParameters s))) 0 s)) 0)
    as [Hneg|Hpos]; [discriminate|].
  intros _. apply Z.leb_le. exact Hpos.
Qed.

Lemma stopPreview_frame_size : preserves mPreviewFrameSize (stopPreview W).
Proof. unfold stopPreview. frame. Qed.

#[local] Hint Resolve stopPreview_frame_size : frame.

Lemma takePicture_frame_size : preserves mPreviewFrameSize (takePicture W).
Proof. unfold takePicture. frame. Qed.

Lemma setParameters_frame_size p :
  preserves mPreviewFrameSize (setParameters p).
Proof. unfold setParameters. frame. Qed.

(** Only [startPreview] writes the frame size. *)
Lemma exec_frame_size op s :
  is_StartPreview op = false ->
  mPreviewFrameSize (exec W op s) = mPreviewFrameSize s.
Proof.
  destruct op; intros Hop; try discriminate; cbn [exec];
    try reflexivity.
  - apply stopPreview_frame_size.
  - apply takePicture_frame_size.
  - apply setParameters_frame_size.
  - destruct (mPreviewThread s); [|reflexivity].
    apply threadLoop_preserves. reflexivity.
Qed.

(** The frame size is zero until a [startPreview] gets a node open. *)
Lemma run_frame_size_zero ops s :
  mPreviewFrameSize s = 0 ->
  run_opens_node W ops s = false ->
  mPreviewFrameSize (run W ops s) = 0.
Proof.
  revert s. induction ops as [|op ops IH]; intros s Hs Hno; [exact Hs|].
  cbn [run_opens_node] in Hno. apply orb_false_iff in Hno as [Hop Hno].
  change (run W (op :: ops) s) with (run W ops (exec W op s)).
  apply IH; [|exact Hno].
  destruct (is_StartPreview op) eqn:E.
  - destruct op; try discriminate E. cbn [exec].
    rewrite startPreview_frame_size. cbn [andb] in Hop. now rewrite Hop.
  - now rewrite exec_frame_size.
Qed.

End FrameSize.

(** ** Configuration updates *)

Section Configuration.

Lemma differs_spec x lit : differs x lit = true <-> x <> Some lit.
Proof.
  destruct x as [v|]; cbn [differs]; [|split; [discriminate|reflexivity]].
  destruct (String.eqb_spec v lit) as [->|Hne]; cbn [negb]; split;
    congruence.
Qed.

Lemma differs_false x lit : differs x lit = false -> x = Some lit.
Proof.
  destruct x as [v|]; cbn [differs]; [|discriminate].
  destruct (String.eqb_spec v lit) as [->|]; [reflexivity|discriminate].
Qed.

Lemma getSize_set_ne k k' v (p : CameraParameters.t) :
  k <> k' -> getSize k' (set k v p) = getSize k' p.
Proof. intros Hk. unfold getSize. now rewrite get_set_ne. Qed.

Lemma getInt_set_ne k k' v (p : CameraParameters.t) :
  k <> k' -> getInt k' (set k v p) = getInt k' p.
Proof. intros Hk. unfold getInt. now rewrite get_set_ne. Qed.

Lemma setParameters_rejected p s :
  differs (getPreviewFormat p) "yuv422sp" = true
  \/ differs (getPictureFormat p) "jpeg" = true ->
  setParameters p s = (-1, s).
Proof.
  intros H. unfold setParameters.
  destruct (differs (getPreviewFormat p) "yuv422sp"); [reflexivity|].
  destruct H as [H|H]; [discriminate|]. rewrite H. reflexivity.
Qed.

Lemma setParameters_accepted p s :
  getPreviewFormat p = Some "yuv422sp" ->
  getPictureFormat p = Some "jpeg" ->
  setParameters p s =
    (NO_ERROR,
     set_mParameters
       (set KEY_SUPPORTED_PREVIEW_FPS_RANGE supportedFpsRanges
          (setPreviewSize (fst (getPreviewSize p)) (snd (getPreviewSize p))
             p)) s).
Proof.
  intros Hv Hj. unfold setParameters. rewrite Hv, Hj.
  change (differs (Some "yuv422sp") "yuv422sp") with false.
  change (differs (Some "jpeg") "jpeg") with false. cbv iota.
  destruct (getPictureSize p) as [w h], (getPreviewSize p) as [w' h'].
  step_m. destruct s; reflexivity.
Qed.

Lemma supportedFpsRanges_text : supportedFpsRanges = show_ranges fpsRanges.
Proof. vm_compute. reflexivity. Qed.

(** C6.  [setParameters] compares the preview format, and then the
    picture format, with the supported ones by [strcmp].  Wherever those
    comparisons are defined, that is on strings, a configuration whose
    preview format is not [yuv422sp], or whose picture format is not
    [jpeg], is refused: [setParameters] returns -1 (the code's only
    "unsupported format" status) and leaves the controller exactly as it
    was, so that [getParameters] returns the configuration held before.  A
    configuration without a preview format is not refused in that way:
    its picture format may well be unsupported, as [png] is, but the first
    [strcmp] is handed the null pointer, and the check that would let the
    code answer is not there. *)
Theorem setParameters_unsupported_format :
  (forall p s,
      strcmp_defined p = true ->
      getPreviewFormat p <> Some "yuv422sp"
      \/ getPictureFormat p <> Some "jpeg" ->
      fst (setParameters p s) = -1
      /\ snd (setParameters p s) = s
      /\ fst (getParameters (snd (setParameters p s)))
         = fst (getParameters s))
  /\ (let p := setPictureFormat "png" CameraParameters.empty in
      getPictureFormat p = Some "png"
      /\ getPreviewFormat p = None
      /\ strcmp_arguments p = [None]
      /\ strcmp_defined p = false).
Proof.
  split; [|vm_compute; repeat split].
  intros p s Hdef H. rewrite setParameters_rejected; [repeat split|].
  unfold strcmp_defined, strcmp_arguments in Hdef.
  destruct (differs (getPreviewFormat p) "yuv422sp") eqn:Ev; [now left|].
  right. apply differs_spec.
  destruct H as [H|H]; [|exact H].
  apply differs_false in Ev. contradiction.
Qed.

(** C7.  A configuration with the two supported formats is accepted, and
    [getParameters] then returns the preview size, the picture size and the
    frame rate that were requested, whatever they are, together with the
    fixed list of supported frame-rate ranges: the text
    [supportedFpsRanges], which spells out the eleven (min, max) pairs of
    [fpsRanges]. *)
Theorem setParameters_getParameters p s :
  getPreviewFormat p = Some "yuv422sp" ->
  getPictureFormat p = Some "jpeg" ->
  let q := fst (getParameters (snd (setParameters p s))) in
  fst (setParameters p s) = NO_ERROR
  /\ getPreviewSize q = getPreviewSize p
  /\ getPictureSize q = getPictureSize p
  /\ getPreviewFrameRate q = getPreviewFrameRate p
  /\ get KEY_SUPPORTED_PREVIEW_FPS_RANGE q = Some supportedFpsRanges
  /\ supportedFpsRanges = show_ranges fpsRanges
  /\ length fpsRanges = 11%nat.
Proof.
  intros Hv Hj. cbv zeta. rewrite setParameters_accepted by assumption.
  unfold getParameters, gets. fields.
  repeat split.
  - unfold getPreviewSize, setPreviewSize.
    rewrite getSize_set_ne by keys. apply getSize_rewrite.
  - unfold getPictureSize, setPreviewSize, setSize.
    now rewrite !getSize_set_ne by keys.
  - unfold getPreviewFrameRate, setPreviewSize, setSize.
    now rewrite !getInt_set_ne by keys.
  - apply get_set. keys.
Qed.

End Configuration.

(** ** Properties of the controller *)

Section Properties.

Variable W : World.

Lemma opens_no_allocation a k w h : filter is_allocation (opens a k w h) = [].
Proof.
  unfold opens. revert a. induction k as [|k IH]; intros a; [reflexivity|].
  cbn [seq map filter is_allocation]. apply IH.
Qed.

(** C5, amended.  An iteration that is not stopped grabs a frame and then,
    if the preview-frame or the video-frame kind is enabled, delivers the
    preview frame; when the video-frame kind is enabled and recording is
    active it first converts the frame and delivers a timestamped
    video-frame event carrying the record buffer, and otherwise delivers no
    video frame.  The record buffer is the one the last [startRecording]
    allocated, whatever happened since: its size is 3/4, in [int]
    arithmetic, of the preview frame size held when [startRecording] ran.
    That frame size is 0 on the constructed controller.  A [startPreview]
    that gets a device node open, which is when one of the ten nodes is
    accepted after the ones before it were refused, sets it to
    width * height * 2 for the preview size configured then, whether it
    goes on to succeed, as it may, or fails at [Init] or
    [StartStreaming]; a [startPreview] that gets no node open leaves it
    as it is, and so does every other operation and every iteration of the
    loop. *)
Theorem previewThread_video_frame :
  (forall s,
      previewStopped s = false ->
      let width := fst (getPreviewSize (mParameters s)) in
      let height := snd (getPreviewSize (mParameters s)) in
      let convert :=
        Yuyv422ToYuv420sp (mHeap s) (mRecordHeap s) width height in
      let timeStamp :=
        system_time W (calls s ++ [CamGrabPreviewFrame (mHeap s); convert])
      in
      added s (calls (snd (previewThread W s))) =
        CamGrabPreviewFrame (mHeap s) ::
        (if enabled (mMsgEnabled s) CAMERA_MSG_PREVIEW_FRAME
            || enabled (mMsgEnabled s) CAMERA_MSG_VIDEO_FRAME
         then
           (if enabled (mMsgEnabled s) CAMERA_MSG_VIDEO_FRAME
               && mRecordRunning s
            then
              [convert;
               TimestampFn (mTimestampFn s) timeStamp
                 CAMERA_MSG_VIDEO_FRAME (mRecordBuffer s) (mUser s)]
            else []) ++
           [DataFn (mDataFn s) CAMERA_MSG_PREVIEW_FRAME (mBuffer s)
              (mUser s)]
         else []))
  /\ (forall s ops,
         forallb (fun op => negb (is_StartRecording op)) ops = true ->
         let size := Int32.div (Int32.mul (mPreviewFrameSize s) 3) 4 in
         let heap := {| heap_id := length (calls s); heap_size := size |} in
         mRecordBuffer (run W ops (snd (startRecording s)))
         = Some {| mem_heap := Some heap; mem_offset := 0;
                   mem_size := size |})
  /\ (forall s,
         fst (startPreview W s) = NO_ERROR ->
         mPreviewFrameSize (snd (startPreview W s))
         = Int32.mul
             (Int32.mul (fst (getPreviewSize (mParameters s)))
                (snd (getPreviewSize (mParameters s)))) 2)
  /\ (forall cameraId, mPreviewFrameSize (CameraHardware cameraId) = 0)
  /\ (forall s,
         mPreviewFrameSize (snd (startPreview W s))
         = if opens_node W s
           then Int32.mul
                  (Int32.mul (fst (getPreviewSize (mParameters s)))
                     (snd (getPreviewSize (mParameters s)))) 2
           else mPreviewFrameSize s)
  /\ (forall s,
         let width := fst (getPreviewSize (mParameters s)) in
         let height := snd (getPreviewSize (mParameters s)) in
         opens_node W s = true <->
         mPreviewThread s = None
         /\ exists k, (k < 10)%nat
              /\ 0 <= open_result W (calls s ++ probes k width height)
                        (devnode (Z.of_nat k)) width height
              /\ forall j, (j < k)%nat ->
                   open_result W (calls s ++ probes j width height)
                     (devnode (Z.of_nat j)) width height < 0)
  /\ (forall op s,
         is_StartPreview op = false ->
         mPreviewFrameSize (exec W op s) = mPreviewFrameSize s).
Proof.
  split; [|split; [|split; [|split; [|split; [|split]]]]].
  - intros s Hrun. cbv zeta.
    rewrite previewThread_running by assumption. fields.
    rewrite added_app. reflexivity.
  - intros s ops Hops. cbv zeta.
    exact (f_equal snd (run_region W ops (snd (startRecording s)) Hops)).
  - intros s Hok. rewrite startPreview_frame_size.
    now rewrite startPreview_success_opens.
  - reflexivity.
  - apply startPreview_frame_size.
  - apply opens_node_spec.
  - apply exec_frame_size.
Qed.

(** C8.  [startPreview] on a controller that holds a preview loop returns
    [INVALID_OPERATION] and leaves the controller, log included, exactly as
    it was: no node is probed, nothing is allocated, the frame size stays.
    A [startPreview] that reports success has allocated one buffer region,
    of width * height * 2 bytes for the configured preview size, and the
    preview buffer is the window over all of it.  The product is the [int]
    product of the code; it is the mathematical one whenever that fits an
    [int]. *)
Theorem startPreview_guard_and_allocation s :
  (is_Some (mPreviewThread s) -> startPreview W s = (INVALID_OPERATION, s))
  /\ (fst (startPreview W s) = NO_ERROR ->
      let s' := snd (startPreview W s) in
      let width := fst (getPreviewSize (mParameters s)) in
      let height := snd (getPreviewSize (mParameters s)) in
      let size := Int32.mul (Int32.mul width height) 2 in
      (exists id, mHeap s' = Some {| heap_id := id; heap_size := size |})
      /\ mBuffer s'
         = Some {| mem_heap := mHeap s'; mem_offset := 0; mem_size := size |}
      /\ mPreviewFrameSize s' = size
      /\ filter is_allocation (added s (calls s')) = [NewMemoryHeapBase size]
      /\ (Int32.in_range (width * height * 2) ->
          size = width * height * 2)).
Proof.
  split; [apply startPreview_running|].
  intros Hok. cbv zeta.
  destruct (startPreview_success W s Hok) as (k & _ & ->). fields.
  rewrite added_app, filter_app. unfold probes. rewrite opens_no_allocation.
  repeat split; try reflexivity.
  - eexists. reflexivity.
  - apply mul_mul_exact.
Qed.

Lemma CameraHardware_state cameraId :
  CameraHardware cameraId
  = set_mParameters
      (set KEY_SUPPORTED_PREVIEW_FPS_RANGE supportedFpsRanges
         (setPreviewSize (fst (getPreviewSize defaultParameters))
            (snd (getPreviewSize defaultParameters)) defaultParameters))
      (initial cameraId).
Proof.
  unfold CameraHardware, initDefaultParameters, bind.
  rewrite setParameters_accepted by (vm_compute; reflexivity).
  reflexivity.
Qed.

(** C9.  [stopPreview] on a controller that holds no preview loop only
    writes the stopped flag: it makes no call at all, so nothing is torn
    down.  On the controller as constructed that changes nothing; and
    after any [stopPreview] a second one changes nothing either. *)
Theorem stopPreview_idempotent :
  (forall s, mPreviewThread s = None ->
             snd (stopPreview W s) = set_previewStopped true s
             /\ added s (calls (snd (stopPreview W s))) = [])
  /\ (forall cameraId,
         stopPreview W (CameraHardware cameraId)
         = (tt, CameraHardware cameraId))
  /\ (forall s,
         stopPreview W (snd (stopPreview W s)) = (tt, snd (stopPreview W s))).
Proof.
  split; [|split].
  - intros s Ht. rewrite stopPreview_idle by assumption. fields.
    split; [reflexivity | apply added_nil].
  - intros cameraId. rewrite CameraHardware_state.
    now rewrite stopPreview_idle by reflexivity.
  - intros s. destruct (mPreviewThread s) as [t|] eqn:Ht.
    + rewrite (stopPreview_running W s t Ht). fields.
      now rewrite stopPreview_idle.
    + rewrite (stopPreview_idle W s Ht). fields.
      rewrite stopPreview_idle by exact Ht. now destruct s.
Qed.

(** C10, amended.  On a controller whose preview frame size is still
    zero, [startRecording] returns [NO_ERROR], sets the recording flag and
    allocates a record buffer region of size zero; a later [startPreview]
    leaves that heap and that buffer as they are, and so does everything
    else the client and the preview loop may do, short of another
    [startRecording].  The frame size is zero on the constructed
    controller and stays zero as long as no [startPreview] has got a device
    node open, which is when one of the ten nodes is accepted after the
    ones before it were refused.  A [startPreview] that succeeds has got
    one open; so has one that fails later, at [Init] or
    [StartStreaming]. *)
Theorem startRecording_before_preview s :
  mPreviewFrameSize s = 0 ->
  let s1 := snd (startRecording s) in
  let heap := {| heap_id := length (calls s); heap_size := 0 |} in
  fst (startRecording s) = NO_ERROR
  /\ mRecordRunning s1 = true
  /\ mRecordHeap s1 = Some heap
  /\ mRecordBuffer s1
     = Some {| mem_heap := Some heap; mem_offset := 0; mem_size := 0 |}
  /\ filter is_allocation (added s (calls s1)) = [NewMemoryHeapBase 0]
  /\ mRecordHeap (snd (startPreview W s1)) = mRecordHeap s1
  /\ mRecordBuffer (snd (startPreview W s1)) = mRecordBuffer s1
  /\ (forall ops,
         forallb (fun op => negb (is_StartRecording op)) ops = true ->
         mRecordHeap (run W ops s1) = mRecordHeap s1
         /\ mRecordBuffer (run W ops s1) = mRecordBuffer s1)
  /\ (forall cameraId, mPreviewFrameSize (CameraHardware cameraId) = 0)
  /\ (forall ops cameraId,
         run_opens_node W ops (CameraHardware cameraId) = false ->
         mPreviewFrameSize (run W ops (CameraHardware cameraId)) = 0)
  /\ (forall s0,
         let width := fst (getPreviewSize (mParameters s0)) in
         let height := snd (getPreviewSize (mParameters s0)) in
         opens_node W s0 = true <->
         mPreviewThread s0 = None
         /\ exists k, (k < 10)%nat
              /\ 0 <= open_result W (calls s0 ++ probes k width height)
                        (devnode (Z.of_nat k)) width height
              /\ forall j, (j < k)%nat ->
                   open_result W (calls s0 ++ probes j width height)
                     (devnode (Z.of_nat j)) width height < 0)
  /\ (forall s0, fst (startPreview W s0) = NO_ERROR -> opens_node W s0 = true).
Proof.
  intros Hsize. cbv zeta.
  pose proof (startPreview_region W (snd (startRecording s))) as H.
  rewrite (f_equal fst H : mRecordHeap _ = _).
  rewrite (f_equal snd H : mRecordBuffer _ = _).
  assert (Hrun : forall ops,
             forallb (fun op => negb (is_StartRecording op)) ops = true ->
             mRecordHeap (run W ops (snd (startRecording s)))
             = mRecordHeap (snd (startRecording s))
             /\ mRecordBuffer (run W ops (snd (startRecording s)))
                = mRecordBuffer (snd (startRecording s))).
  { intros ops Hops.
    pose proof (run_region W ops (snd (startRecording s)) Hops) as E.
    split; [exact (f_equal fst E) | exact (f_equal snd E)]. }
  revert Hrun. rewrite startRecording_spec. fields.
  rewrite Hsize, added_app. intros Hrun.
  do 7 (split; [reflexivity|]).
  split; [exact Hrun|]. split; [reflexivity|].
  split; [intros ops cameraId; now apply run_frame_size_zero|].
  split; [apply opens_node_spec|apply startPreview_success_opens].
Qed.

End Properties.

(** ** Stopping preview and taking a picture *)

Section StopAndCapture.

Variable W : World.

Lemma requestExitAndWait_stopped t s :
  previewStopped s = true ->
  requestExitAndWait W t s
  = (tt, set_calls (calls s ++ [ThreadRequestExitAndWait t]) s).
Proof.
  intros Hstop. unfold requestExitAndWait. step_m.
  now rewrite late_iterations_stopped.
Qed.

(** Whatever the state, a stop writes the flag, clears the handle and only
    adds to the log. *)
Lemma stopPreview_shape s :
  exists l,
    snd (stopPreview W s)
    = set_mPreviewThread None
        (set_calls (calls s ++ l) (set_previewStopped true s)).
Proof.
  destruct (mPreviewThread s) as [t|] eqn:Ht.
  - eexists. rewrite (stopPreview_running W s t Ht). reflexivity.
  - exists []. rewrite (stopPreview_idle W s Ht). rewrite app_nil_r.
    destruct s; cbn in *; subst; reflexivity.
Qed.

(** C2, amended.  With a preview loop running, [stopPreview] sets the
    stopped flag, then waits for the loop, whose late iterations find the
    flag set and add nothing to the log, then calls the device in the order
    uninitialize, stop streaming, close, and finally clears the loop's
    handle. *)
Theorem stopPreview_sequence s t :
  mPreviewThread s = Some t ->
  let s1 := set_previewStopped true s in
  let s2 := snd (requestExitAndWait W t s1) in
  s2 = set_calls (calls s ++ [ThreadRequestExitAndWait t]) s1
  /\ stopPreview W s
     = (tt,
        set_mPreviewThread None
          (set_calls (calls s2 ++ [CamUninit; CamStopStreaming; CamClose])
             s2)).
Proof.
  intros Ht. cbv zeta.
  rewrite requestExitAndWait_stopped by reflexivity. fields.
  split; [reflexivity|].
  rewrite (stopPreview_running W s t Ht), <- app_assoc. reflexivity.
Qed.

(** C3, amended.  [takePicture] stops preview, returns [NO_ERROR] and
    leaves no preview loop.  Its still-capture cycle delivers the shutter
    event if that kind is enabled, then probes the device nodes in their
    order, node 0 first, at the configured preview size: the picture size
    is read, and then overwritten by the preview size.  At the first node
    the machine accepts, all the nodes before it having been refused, the
    cycle initializes the device and starts streaming, delivers a
    compressed-image event with the JPEG frame of the camera if that kind
    is enabled, and tears the device down (uninitialize, stop streaming,
    close).  If the machine refuses all ten nodes, the cycle ends after
    the tenth with the status -1, which [takePicture] does not return, and
    with nothing delivered but the shutter event. *)
Theorem takePicture_still_cycle s :
  let s1 := snd (stopPreview W s) in
  let width := fst (getPreviewSize (mParameters s)) in
  let height := snd (getPreviewSize (mParameters s)) in
  let shutter :=
    if enabled (mMsgEnabled s) CAMERA_MSG_SHUTTER
    then [NotifyFn (mNotifyFn s) CAMERA_MSG_SHUTTER 0 0 (mUser s)]
    else [] in
  let answer (j : nat) :=
    open_result W ((calls s1 ++ shutter) ++ probes j width height)
      (devnode (Z.of_nat j)) width height in
  fst (takePicture W s) = NO_ERROR
  /\ mPreviewThread (snd (takePicture W s)) = None
  /\ exists k,
      (1 <= k <= 10)%nat
      /\ (forall j, (j < k - 1)%nat -> answer j < 0)
      /\ (answer (k - 1)%nat < 0 /\ k = 10%nat
          /\ fst (pictureThread W s1) = -1
          /\ added s1 (calls (snd (takePicture W s)))
             = (shutter ++ probes 10 width height)%list
          \/ 0 <= answer (k - 1)%nat
             /\ fst (pictureThread W s1) = NO_ERROR
             /\ added s1 (calls (snd (takePicture W s))) =
                (shutter ++ probes k width height ++
                 [CamInit; CamStartStreaming] ++
                 (if enabled (mMsgEnabled s) CAMERA_MSG_COMPRESSED_IMAGE
                  then
                    [CamGrabJpegFrame;
                     DataFn (mDataFn s) CAMERA_MSG_COMPRESSED_IMAGE
                       (jpeg_frame W
                          (calls s1 ++ shutter ++ probes k width height
                           ++ [CamInit; CamStartStreaming]))
                       (mUser s)]
                  else []) ++
                 [CamUninit; CamStopStreaming; CamClose])%list).
Proof.
  cbv zeta. split; [reflexivity|].
  change (snd (takePicture W s))
    with (snd (pictureThread W (snd (stopPreview W s)))).
  destruct (stopPreview_shape s) as (l & Hs1).
  set (s1 := snd (stopPreview W s)) in *.
  assert (Hp : mParameters s1 = mParameters s) by now rewrite Hs1.
  assert (Hm : mMsgEnabled s1 = mMsgEnabled s) by now rewrite Hs1.
  assert (Hn : mNotifyFn s1 = mNotifyFn s) by now rewrite Hs1.
  assert (Hd : mDataFn s1 = mDataFn s) by now rewrite Hs1.
  assert (Hu : mUser s1 = mUser s) by now rewrite Hs1.
  assert (Ht : mPreviewThread s1 = None) by now rewrite Hs1.
  destruct (pictureThread_cases W s1) as (k & Hk & Hfail & Hcase).
  cbv zeta in Hfail, Hcase. rewrite Hp, Hm, Hn, Hu in Hfail, Hcase.
  split.
  { rewrite (pictureThread_preserves W mPreviewThread) by reflexivity.
    exact Ht. }
  exists k. split; [exact Hk|]. split; [exact Hfail|].
  destruct Hcase as [(Hneg & -> & E) | (Hpos & E)]; rewrite E; fields;
    rewrite added_app.
  - left. repeat split. exact Hneg.
  - right. split; [exact Hpos|]. split; [reflexivity|].
    unfold still_calls. rewrite Hp, Hm, Hn, Hu, Hd. reflexivity.
Qed.

End StopAndCapture.

(** ** What holds of a controller in use *)

Section Invariants.

Variable W : World.

#[local] Hint Resolve preserves_ret preserves_gets preserves_modify
  preserves_bind preserves_when preserves_repeat call_preserves
  probe_preserves previewThread_preserves threadLoop_preserves
  requestExitAndWait_preserves pictureThread_preserves : frame.

Lemma startPreview_session :
  preserves record_session (startPreview W).
Proof.
  unfold startPreview, camera_Init, camera_StartStreaming, new_PreviewThread,
    new_MemoryHeapBase, new_MemoryBase.
  frame.
Qed.

Lemma stopPreview_session : preserves record_session (stopPreview W).
Proof. unfold stopPreview. frame. Qed.

Lemma takePicture_session : preserves record_session (takePicture W).
Proof. unfold takePicture. pose proof stopPreview_session. frame. Qed.

Lemma setParameters_session p :
  preserves record_session (setParameters p)
  /\ preserves preview_session (setParameters p).
Proof. unfold setParameters. split; frame. Qed.

Lemma threadLoop_session s :
  preview_session (snd (threadLoop W s)) = preview_session s
  /\ record_session (snd (threadLoop W s)) = record_session s.
Proof. split; apply threadLoop_preserves; reflexivity. Qed.

(** A start that does not report success has not created the loop. *)
Lemma startPreview_no_thread s :
  mPreviewThread s = None ->
  fst (startPreview W s) = NO_ERROR
  \/ mPreviewThread (snd (startPreview W s)) = None.
Proof.
  intros Ht. unfold startPreview. step_m. rewrite Ht.
  destruct (probe_spec W (fst (getPreviewSize (mParameters s)))
              (snd (getPreviewSize (mParameters s))) s)
    as (k & Hk & Hs & _).
  destruct (fst (probe W 10 0 _ _ 0 s) <? 0).
  - right. rewrite Hs. fields. exact Ht.
  - rewrite Hs. step_m.
    match goal with
    | |- context [negb (?r =? 0)] => destruct (Z.eqb_spec r 0)
    end; step_m; [|right; exact Ht].
    match goal with
    | |- context [negb (?r =? 0)] => destruct (Z.eqb_spec r 0)
    end; step_m; [left; reflexivity|right; exact Ht].
Qed.

Lemma preview_ready_session s s' :
  preview_session s' = preview_session s -> preview_ready s -> preview_ready s'.
Proof.
  unfold preview_session, preview_ready. intros E H.
  injection E as -> -> -> -> ->. exact H.
Qed.

Lemma record_ready_session s s' :
  record_session s' = record_session s -> record_ready s -> record_ready s'.
Proof.
  unfold record_session, record_ready. intros E H.
  injection E as -> -> ->. exact H.
Qed.

Lemma preview_ready_idle s : mPreviewThread s = None -> preview_ready s.
Proof. intros Ht t. rewrite Ht. discriminate. Qed.

Lemma exec_preview_ready op s : preview_ready s -> preview_ready (exec W op s).
Proof.
  intros H. destruct op; cbn [exec];
    try (apply (preview_ready_session s); [reflexivity | exact H]).
  - (* startPreview *)
    destruct (mPreviewThread s) as [t|] eqn:Ht.
    + rewrite startPreview_running by (rewrite Ht; eexists; reflexivity).
      exact H.
    + destruct (startPreview_no_thread s Ht) as [Hok|Hno];
        [|now apply preview_ready_idle].
      destruct (startPreview_success W s Hok) as (k & _ & ->).
      intros t _. fields. split; [reflexivity|].
      eexists. repeat split.
  - (* stopPreview *)
    destruct (stopPreview_shape W s) as (l & ->).
    now apply preview_ready_idle.
  - (* takePicture *)
    apply preview_ready_idle.
    change (snd (takePicture W s))
      with (snd (pictureThread W (snd (stopPreview W s)))).
    rewrite (pictureThread_preserves W mPreviewThread) by reflexivity.
    destruct (stopPreview_shape W s) as (l & ->). reflexivity.
  - (* setParameters *)
    apply (preview_ready_session s); [|exact H].
    apply setParameters_session.
  - (* loop iteration *)
    destruct (mPreviewThread s); [|exact H].
    apply (preview_ready_session s); [|exact H]. apply threadLoop_session.
Qed.

Lemma exec_record_ready op s : record_ready s -> record_ready (exec W op s).
Proof.
  intros H. destruct op; cbn [exec];
    try (apply (record_ready_session s); [reflexivity | exact H]).
  - apply (record_ready_session s); [apply startPreview_session | exact H].
  - apply (record_ready_session s); [apply stopPreview_session | exact H].
  - intros _. rewrite startRecording_spec. fields. eexists. split; reflexivity.
  - intros E. discriminate E.
  - apply (record_ready_session s); [apply takePicture_session | exact H].
  - apply (record_ready_session s); [apply setParameters_session | exact H].
  - destruct (mPreviewThread s); [|exact H].
    apply (record_ready_session s); [|exact H]. apply threadLoop_session.
Qed.

(** Whatever the client and the preview loop have done since the
    controller was constructed: while it holds the loop the stopped flag is
    clear and the preview buffer spans a heap of the preview frame size,
    and while recording is active the record buffer spans the record
    heap. *)
Theorem controller_invariants ops cameraId :
  let s := run W ops (CameraHardware cameraId) in
  preview_ready s /\ record_ready s.
Proof.
  cbv zeta.
  assert (H0 : preview_ready (CameraHardware cameraId)
               /\ record_ready (CameraHardware cameraId)).
  { rewrite CameraHardware_state. split.
    - now apply preview_ready_idle.
    - intros E. discriminate E. }
  revert H0. generalize (CameraHardware cameraId).
  induction ops as [|op ops IH]; intros s [Hp Hr]; [now split|].
  apply IH. split; [now apply exec_preview_ready | now apply exec_record_ready].
Qed.

(** C4.  An iteration of the preview loop that finds the stopped flag set
    returns without a single call: no frame is grabbed, no callback runs.
    One that finds it clear delivers a preview-frame event, once, through
    the data callback and with the preview buffer, exactly when the
    preview-frame or the video-frame kind is enabled at that moment.  Both
    hold in every state of the controller.  A [startPreview] that reports
    success leaves the flag clear and the loop's handle held, and in every
    run of the controller from its construction the flag is clear whenever
    the loop's handle is held. *)
Theorem previewThread_preview_frame :
  (forall s,
      previewStopped s = true -> previewThread W s = (NO_ERROR, s))
  /\ (forall s,
         previewStopped s = false ->
         delivered CAMERA_MSG_PREVIEW_FRAME
           (added s (calls (snd (previewThread W s))))
         = if enabled (mMsgEnabled s) CAMERA_MSG_PREVIEW_FRAME
              || enabled (mMsgEnabled s) CAMERA_MSG_VIDEO_FRAME
           then [DataFn (mDataFn s) CAMERA_MSG_PREVIEW_FRAME (mBuffer s)
                   (mUser s)]
           else [])
  /\ (forall s,
         fst (startPreview W s) = NO_ERROR ->
         previewStopped (snd (startPreview W s)) = false
         /\ is_Some (mPreviewThread (snd (startPreview W s))))
  /\ (forall ops cameraId,
         is_Some (mPreviewThread (run W ops (CameraHardware cameraId))) ->
         previewStopped (run W ops (CameraHardware cameraId)) = false).
Proof.
  split; [apply previewThread_stopped|]. split; [|split].
  - intros s Hrun. rewrite previewThread_running by assumption.
    fields. rewrite added_app.
    destruct (enabled (mMsgEnabled s) CAMERA_MSG_PREVIEW_FRAME
              || enabled (mMsgEnabled s) CAMERA_MSG_VIDEO_FRAME);
      [|reflexivity].
    destruct (enabled (mMsgEnabled s) CAMERA_MSG_VIDEO_FRAME
              && mRecordRunning s); reflexivity.
  - intros s Hok. destruct (startPreview_success W s Hok) as (k & _ & ->).
    fields. split; [reflexivity | eexists; reflexivity].
  - intros ops cameraId [t Ht].
    destruct (controller_invariants ops cameraId) as [Hp _].
    now destruct (Hp t Ht).
Qed.

End Invariants.

(** ** The status of a still capture *)

(** C1.  [takePicture] returns [NO_ERROR] whatever the still-capture cycle
    returns.  On the machine without a camera all ten nodes are tried and
    refused and [pictureThread] returns -1, which [takePicture] drops;
    [startPreview], probing the same nodes, reports the failure as -1. *)
Theorem takePicture_drops_capture_failure :
  (forall W s, fst (takePicture W s) = NO_ERROR)
  /\ (let s := CameraHardware 0 in
      fst (pictureThread no_camera (snd (stopPreview no_camera s))) = -1
      /\ filter is_camera_call
           (added s (calls (snd (takePicture no_camera s))))
         = probes 10 320 240
      /\ fst (takePicture no_camera s) = NO_ERROR
      /\ fst (startPreview no_camera s) = -1).
Proof. split; [reflexivity|]. vm_compute. repeat split. Qed.

(** C2 as stated does not hold: on a running preview the device calls of
    [stopPreview] are uninitialize, stop streaming, close, which is not
    the reverse of the order of acquisition. *)
Lemma stopPreview_teardown_not_reversed :
  is_Some (mPreviewThread previewing)
  /\ filter is_camera_call
       (added previewing (calls (snd (stopPreview one_camera previewing))))
     = [CamUninit; CamStopStreaming; CamClose]
  /\ filter is_camera_call
       (added previewing (calls (snd (stopPreview one_camera previewing))))
     <> [CamStopStreaming; CamUninit; CamClose].
Proof.
  vm_compute. split; [eexists; reflexivity|]. split; [reflexivity|].
  discriminate.
Qed.

Lemma stopPreview_sequence_witness :
  mPreviewThread previewing = Some 5%nat
  /\ stopPreview one_camera previewing
     = (tt,
        set_mPreviewThread None
          (set_calls
             (calls previewing
              ++ [ThreadRequestExitAndWait 5; CamUninit; CamStopStreaming;
                  CamClose])
             (set_previewStopped true previewing))).
Proof.
  assert (H : mPreviewThread previewing = Some 5%nat)
    by (vm_compute; reflexivity).
  split; [exact H|].
  destruct (stopPreview_sequence one_camera previewing 5%nat H) as [_ ->].
  vm_compute. reflexivity.
Defined.

(** ** The properties at work on one machine *)

(** C3 as stated does not hold: with pictures configured at 320x240 and
    preview at 640x480, the still-capture cycle opens the device at
    640x480, and never at the picture size. *)
Lemma takePicture_opens_at_preview_size :
  getPictureSize (mParameters wide_preview) = (320, 240)
  /\ getPreviewSize (mParameters wide_preview) = (640, 480)
  /\ filter is_camera_call
       (added wide_preview (calls (snd (takePicture one_camera wide_preview))))
     = [CamOpen "/dev/video0" 640 480 PIXEL_FORMAT;
        CamOpen "/dev/video1" 640 480 PIXEL_FORMAT;
        CamInit; CamStartStreaming; CamGrabJpegFrame;
        CamUninit; CamStopStreaming; CamClose]
  /\ ~ In (CamOpen "/dev/video1" 320 240 PIXEL_FORMAT)
         (calls (snd (takePicture one_camera wide_preview))).
Proof.
  vm_compute. repeat split.
  intros H. repeat (destruct H as [H|H]; [discriminate H|]). exact H.
Qed.

(** C5 as stated does not hold.  When recording was started before
    preview, a running iteration with video frames enabled delivers a video
    frame whose buffer has size 0, not 3/4 of 320 * 240 * 2.  And preview
    frames do depend on the video-frame kind: with that kind alone enabled
    they are delivered, and disabling it stops them. *)
Lemma video_frame_buffer_not_three_quarters :
  (enabled (mMsgEnabled recording_first) CAMERA_MSG_VIDEO_FRAME = true
   /\ mRecordRunning recording_first = true
   /\ previewStopped recording_first = false
   /\ getPreviewSize (mParameters recording_first) = (320, 240)
   /\ Int32.div (Int32.mul (Int32.mul (Int32.mul 320 240) 2) 3) 4 = 115200
   /\ exists timeStamp buffer,
       delivered CAMERA_MSG_VIDEO_FRAME
         (added recording_first
            (calls (snd (previewThread one_camera recording_first))))
       = [TimestampFn (Some 3%nat) timeStamp CAMERA_MSG_VIDEO_FRAME
            (Some buffer) (Some 4%nat)]
       /\ mem_size buffer = 0
       /\ mem_size buffer <> 115200)
  /\ (let s := snd (disableMsgType CAMERA_MSG_VIDEO_FRAME recording_first) in
      enabled (mMsgEnabled recording_first) CAMERA_MSG_PREVIEW_FRAME = false
      /\ delivered CAMERA_MSG_PREVIEW_FRAME
           (added recording_first
              (calls (snd (previewThread one_camera recording_first))))
         = [DataFn (Some 2%nat) CAMERA_MSG_PREVIEW_FRAME
              (mBuffer recording_first) (Some 4%nat)]
      /\ previewStopped s = false
      /\ delivered CAMERA_MSG_PREVIEW_FRAME
           (added s (calls (snd (previewThread one_camera s)))) = []).
Proof.
  vm_compute. repeat split.
  do 2 eexists. repeat split. discriminate.
Qed.

(** C10 as stated does not hold.  On the machine whose camera opens and
    then fails to initialise, the one [startPreview] of the constructed
    controller fails, so that no [startPreview] has succeeded; the frame
    size is 153600 all the same, and [startRecording] allocates a record
    buffer of 115200 bytes, not of zero. *)
Lemma startRecording_after_failed_start :
  let s := snd (startPreview stuck_camera (CameraHardware 0)) in
  fst (startPreview stuck_camera (CameraHardware 0)) = -1
  /\ fst (startPreview stuck_camera (CameraHardware 0)) <> NO_ERROR
  /\ mPreviewThread s = None
  /\ mPreviewFrameSize s = 153600
  /\ fst (startRecording s) = NO_ERROR
  /\ mRecordBuffer (snd (startRecording s))
     = Some {| mem_heap := Some {| heap_id := 4; heap_size := 115200 |};
               mem_offset := 0; mem_size := 115200 |}
  /\ mRecordBuffer (snd (startRecording s))
     <> Some {| mem_heap := Some {| heap_id := 4; heap_size := 0 |};
                mem_offset := 0; mem_size := 0 |}.
Proof. vm_compute. repeat split; discriminate. Qed.

Lemma previewThread_preview_frame_witness :
  (previewStopped previewing = false
   /\ delivered CAMERA_MSG_PREVIEW_FRAME
        (added previewing (calls (snd (previewThread one_camera previewing))))
      = [DataFn (Some 2%nat) CAMERA_MSG_PREVIEW_FRAME (mBuffer previewing)
           (Some 4%nat)])
  /\ (previewStopped (snd (stopPreview one_camera previewing)) = true
      /\ previewThread one_camera (snd (stopPreview one_camera previewing))
         = (NO_ERROR, snd (stopPreview one_camera previewing))).
Proof.
  destruct (previewThread_preview_frame one_camera)
    as (Hstopped & Hrunning & _).
  split; split.
  - vm_compute. reflexivity.
  - rewrite Hrunning by (vm_compute; reflexivity). vm_compute. reflexivity.
  - vm_compute. reflexivity.
  - apply Hstopped. vm_compute. reflexivity.
Defined.

Lemma previewThread_video_frame_witness :
  previewStopped recording = false
  /\ added recording (calls (snd (previewThread one_camera recording)))
     = [CamGrabPreviewFrame (mHeap recording);
        Yuyv422ToYuv420sp (mHeap recording) (mRecordHeap recording) 320 240;
        TimestampFn (Some 3%nat) 9 CAMERA_MSG_VIDEO_FRAME
          (mRecordBuffer recording) (Some 4%nat);
        DataFn (Some 2%nat) CAMERA_MSG_PREVIEW_FRAME (mBuffer recording)
          (Some 4%nat)]
  /\ mRecordBuffer
       (run one_camera [LoopIteration; StopRecording]
          (snd (startRecording previewing)))
     = Some {| mem_heap := Some {| heap_id := 6; heap_size := 115200 |};
               mem_offset := 0; mem_size := 115200 |}
  /\ mPreviewFrameSize previewing = 153600.
Proof.
  destruct (previewThread_video_frame one_camera)
    as (Hout & Hbuf & Hsize & _).
  split; [vm_compute; reflexivity|]. split; [|split].
  - rewrite Hout by (vm_compute; reflexivity). vm_compute. reflexivity.
  - rewrite Hbuf by (vm_compute; reflexivity). vm_compute. reflexivity.
  - change previewing
      with (snd (startPreview one_camera
                   (run one_camera
                      [client; EnableMsgType CAMERA_MSG_PREVIEW_FRAME]
                      (CameraHardware 0)))).
    rewrite Hsize by (vm_compute; reflexivity). vm_compute. reflexivity.
Defined.

Lemma setParameters_unsupported_format_witness :
  strcmp_defined (setPreviewFormat "rgb565" defaultParameters) = true
  /\ getPreviewFormat (setPreviewFormat "rgb565" defaultParameters)
     = Some "rgb565"
  /\ fst (setParameters (setPreviewFormat "rgb565" defaultParameters)
            previewing) = -1
  /\ snd (setParameters (setPreviewFormat "rgb565" defaultParameters)
            previewing) = previewing.
Proof.
  split; [vm_compute; reflexivity|]. split; [vm_compute; reflexivity|].
  destruct setParameters_unsupported_format as [H _].
  destruct (H (setPreviewFormat "rgb565" defaultParameters) previewing)
    as (H1 & H2 & _).
  - vm_compute. reflexivity.
  - left. vm_compute. discriminate.
  - split; assumption.
Defined.

Lemma setParameters_getParameters_witness :
  let p := setPictureSize 320 240 (setPreviewSize 640 480 defaultParameters) in
  let q := fst (getParameters (snd (setParameters p (CameraHardware 0)))) in
  getPreviewSize q = (640, 480)
  /\ getPictureSize q = (320, 240)
  /\ getPreviewFrameRate q = 30
  /\ get KEY_SUPPORTED_PREVIEW_FPS_RANGE q = Some supportedFpsRanges.
Proof.
  cbv zeta.
  destruct (setParameters_getParameters
              (setPictureSize 320 240
                 (setPreviewSize 640 480 defaultParameters))
              (CameraHardware 0))
    as (_ & -> & -> & -> & -> & _); vm_compute; repeat split.
Defined.

Lemma startPreview_guard_and_allocation_witness :
  startPreview one_camera previewing = (INVALID_OPERATION, previewing)
  /\ (let s := run one_camera [client] (CameraHardware 0) in
      fst (startPreview one_camera s) = NO_ERROR
      /\ mBuffer (snd (startPreview one_camera s))
         = Some {| mem_heap := Some {| heap_id := 2; heap_size := 153600 |};
                   mem_offset := 0; mem_size := 153600 |}
      /\ filter is_allocation
           (added s (calls (snd (startPreview one_camera s))))
         = [NewMemoryHeapBase (320 * 240 * 2)]).
Proof.
  split.
  - apply startPreview_guard_and_allocation. vm_compute. eexists; reflexivity.
  - cbv zeta. split; [vm_compute; reflexivity|].
    destruct (startPreview_guard_and_allocation one_camera
                (run one_camera [client] (CameraHardware 0)))
      as (_ & H).
    destruct H as (_ & -> & _ & -> & _); vm_compute; repeat split.
Defined.

Lemma stopPreview_idempotent_witness :
  mPreviewThread (CameraHardware 0) = None
  /\ added (CameraHardware 0)
       (calls (snd (stopPreview one_camera (CameraHardware 0)))) = [].
Proof.
  split; [vm_compute; reflexivity|].
  apply stopPreview_idempotent. vm_compute. reflexivity.
Defined.

Lemma startRecording_before_preview_witness :
  let s := run one_camera [client] (CameraHardware 0) in
  mPreviewFrameSize s = 0
  /\ mRecordRunning (snd (startRecording s)) = true
  /\ mRecordBuffer
       (snd (startPreview one_camera (snd (startRecording s))))
     = Some {| mem_heap := Some {| heap_id := 0; heap_size := 0 |};
               mem_offset := 0; mem_size := 0 |}
  /\ mPreviewFrameSize
       (snd (startPreview one_camera (snd (startRecording s)))) = 153600.
Proof.
  cbv zeta. split; [vm_compute; reflexivity|].
  destruct (startRecording_before_preview one_camera
              (run one_camera [client] (CameraHardware 0)))
    as (_ & H1 & _ & H2 & _ & _ & H3 & _); [vm_compute; reflexivity|].
  split; [exact H1|]. split; [|vm_compute; reflexivity].
  rewrite H3. exact H2.
Defined.

(** * More of the controller

    The loop over the device nodes, the ways [startPreview] fails, the
    device session over whole runs, what reaches the client, the
    configuration held, the message kinds, auto focus and the singleton. *)

Local Open Scope list_scope.

Section NodeLoop.

Variable W : World.

(** X1.  The loop over the device nodes, as [startPreview] and
    [pictureThread] run it: it tries [/dev/video0], [/dev/video1], ... in
    this order and stops at the first node the machine accepts, whose
    result it returns.  Every node tried before that one was refused; the
    loop tries at least one node and at most ten, and it returns a
    negative result only after the tenth node has been refused too. *)
Theorem probe_first_success w h s :
  exists k,
    (1 <= k <= 10)%nat
    /\ snd (probe W 10 0 w h 0 s) = set_calls (calls s ++ probes k w h) s
    /\ fst (probe W 10 0 w h 0 s)
       = open_result W (calls s ++ probes (k - 1) w h)
           (devnode (Z.of_nat (k - 1))) w h
    /\ (forall j, (j < k - 1)%nat ->
          open_result W (calls s ++ probes j w h)
            (devnode (Z.of_nat j)) w h < 0)
    /\ (fst (probe W 10 0 w h 0 s) < 0 -> k = 10%nat)
    /\ ((k < 10)%nat -> 0 <= fst (probe W 10 0 w h 0 s)).
Proof.
  destruct (probe_results W 10 0 w h 0 s) as (k & Hk & Hs & Hv & Hfail & Hf);
    [lia|].
  exists k. unfold probes. repeat split; try assumption; try lia.
  intros Hlt. destruct (Z.ltb_spec (fst (probe W 10 0 w h 0 s)) 0) as [H|H];
    [|exact H].
  apply Hf in H. lia.
Qed.

End NodeLoop.

Section Device.

Variable W : World.

Lemma device_track_app pre l1 l2 open :
  device_track W pre (l1 ++ l2) open
  = match device_track W pre l1 open with
    | Some open' => device_track W (pre ++ l1) l2 open'
    | None => None
    end.
Proof.
  revert pre open. induction l1 as [|c l1 IH]; intros pre open.
  - cbn. now rewrite app_nil_r.
  - cbn [app device_track]. destruct (device_step W pre c open) as [o|];
      [|reflexivity].
    rewrite IH, <- app_assoc. reflexivity.
Qed.

(** Nodes that are refused leave the device closed. *)
Lemma device_track_refused pre w h k :
  (forall j, (j < k)%nat ->
     open_result W (pre ++ probes j w h) (devnode (Z.of_nat j)) w h < 0) ->
  device_track W pre (probes k w h) false = Some false.
Proof.
  induction k as [|k IH]; intros Hfail; [reflexivity|].
  unfold probes in *. rewrite opens_snoc, device_track_app.
  rewrite IH by (intros j Hj; apply Hfail; lia).
  cbn [device_track device_step Nat.add].
  specialize (Hfail k ltac:(lia)).
  destruct (Z.geb_spec
              (open_result W (pre ++ opens 0 k w h) (devnode (Z.of_nat k)) w h)
              0); [lia|reflexivity].
Qed.

(** The loop over the nodes leaves the device open if and only if its
    last node was accepted. *)
Lemma device_track_probes pre w h k :
  (1 <= k)%nat ->
  (forall j, (j < k - 1)%nat ->
     open_result W (pre ++ probes j w h) (devnode (Z.of_nat j)) w h < 0) ->
  device_track W pre (probes k w h) false
  = Some (open_result W (pre ++ probes (k - 1) w h)
            (devnode (Z.of_nat (k - 1))) w h >=? 0).
Proof.
  intros Hk Hfail. destruct k as [|k]; [lia|].
  replace (S k - 1)%nat with k in * by lia.
  unfold probes in *. rewrite opens_snoc, device_track_app.
  fold (probes k w h). rewrite device_track_refused by exact Hfail.
  reflexivity.
Qed.

Lemma in_session_app s l b s' :
  in_session W s ->
  calls s' = calls s ++ l ->
  device_track W (calls s) l (bool_decide (is_Some (mPreviewThread s)))
  = Some b ->
  b = bool_decide (is_Some (mPreviewThread s')) ->
  in_session W s'.
Proof.
  unfold in_session, device. intros H -> Hl ->.
  rewrite device_track_app, H. exact Hl.
Qed.

Lemma in_session_same s s' :
  in_session W s -> calls s' = calls s ->
  mPreviewThread s' = mPreviewThread s -> in_session W s'.
Proof. unfold in_session. now intros H -> ->. Qed.

End Device.

Section Session.

Variable W : World.

#[local] Hint Resolve preserves_ret preserves_gets preserves_modify
  preserves_bind preserves_when preserves_repeat : frame.

Lemma setParameters_log p :
  preserves (fun s => (calls s, mPreviewThread s)) (setParameters p).
Proof. unfold setParameters. frame. Qed.

Lemma stopPreview_in_session s :
  in_session W s ->
  in_session W (snd (stopPreview W s))
  /\ mPreviewThread (snd (stopPreview W s)) = None.
Proof.
  intros H. destruct (mPreviewThread s) as [t|] eqn:Ht.
  - rewrite (stopPreview_running W s t Ht). fields. split; [|reflexivity].
    eapply in_session_app; [exact H|reflexivity| |reflexivity].
    rewrite Ht. reflexivity.
  - rewrite (stopPreview_idle W s Ht). fields. split; [|exact Ht].
    now apply (in_session_same W s).
Qed.

Lemma pictureThread_in_session s :
  in_session W s -> mPreviewThread s = None ->
  in_session W (snd (pictureThread W s)).
Proof.
  intros H Ht.
  destruct (pictureThread_cases W s) as (k & Hk & Hfail & Hcase).
  cbv zeta in Hcase, Hfail.
  destruct Hcase as [(Hneg & -> & ->) | (Hpos & ->)]; fields.
  - eapply in_session_app; [exact H|reflexivity| |fields; reflexivity].
    rewrite Ht. change (bool_decide (is_Some None)) with false.
    rewrite device_track_app.
    replace (device_track W (calls s) _ false) with (Some false)
      by (now destruct (enabled (mMsgEnabled s) CAMERA_MSG_SHUTTER)).
    rewrite device_track_probes by (lia || exact Hfail).
    destruct (Z.geb_spec
                (open_result W
                   ((calls s ++
                     (if enabled (mMsgEnabled s) CAMERA_MSG_SHUTTER
                      then [NotifyFn (mNotifyFn s) CAMERA_MSG_SHUTTER 0 0
                              (mUser s)]
                      else [])) ++
                    probes (10 - 1) (fst (getPreviewSize (mParameters s)))
                      (snd (getPreviewSize (mParameters s))))
                   (devnode (Z.of_nat (10 - 1)))
                   (fst (getPreviewSize (mParameters s)))
                   (snd (getPreviewSize (mParameters s)))) 0);
      [lia|]. reflexivity.
  - eapply in_session_app; [exact H|reflexivity| |fields; reflexivity].
    rewrite Ht. change (bool_decide (is_Some None)) with false.
    unfold still_calls. rewrite device_track_app.
    replace (device_track W (calls s) _ false) with (Some false)
      by (now destruct (enabled (mMsgEnabled s) CAMERA_MSG_SHUTTER)).
    rewrite device_track_app.
    rewrite device_track_probes by (lia || exact Hfail).
    match goal with
    | |- context [?r >=? 0] =>
        destruct (Z.geb_spec r 0) as [_|Hlt]; [|exfalso; cbv zeta in *; lia]
    end.
    destruct (enabled (mMsgEnabled s) CAMERA_MSG_COMPRESSED_IMAGE);
      reflexivity.
Qed.

Lemma startPreview_in_session s :
  in_session W s -> in_session W (snd (startPreview W s)).
Proof.
  intros H. destruct (mPreviewThread s) as [t|] eqn:Ht.
  - rewrite startPreview_running by (rewrite Ht; eexists; reflexivity).
    exact H.
  - destruct (startPreview_cases W s Ht) as (k & Hk & Hfail & Hcase).
    cbv zeta in Hcase, Hfail.
    destruct Hcase
      as [(Hneg & -> & ->)
         | [(Hpos & Hi & ->) | [(Hpos & Hi & Hj & ->) | (Hpos & Hi & Hj & ->)]]];
      unfold node_opened; fields;
      (eapply in_session_app;
       [exact H|fields; rewrite <- ?app_assoc; reflexivity|
       |fields; reflexivity]);
      rewrite Ht; change (bool_decide (is_Some None)) with false;
      rewrite ?device_track_app;
      rewrite device_track_probes by (lia || exact Hfail);
      match goal with
      | |- context [?r >=? 0] =>
          destruct (Z.geb_spec r 0) as [Hge|Hlt]; try (exfalso; lia)
      end; rewrite ?Ht; reflexivity.
Qed.

Lemma threadLoop_in_session s t :
  in_session W s -> mPreviewThread s = Some t ->
  in_session W (snd (threadLoop W s)).
Proof.
  intros H Ht. unfold threadLoop. step_m.
  destruct (previewStopped s) eqn:Hs.
  - rewrite previewThread_stopped by exact Hs. exact H.
  - rewrite previewThread_running by exact Hs. fields.
    eapply in_session_app; [exact H|reflexivity| |fields; reflexivity].
    rewrite Ht.
    destruct (enabled (mMsgEnabled s) CAMERA_MSG_PREVIEW_FRAME
              || enabled (mMsgEnabled s) CAMERA_MSG_VIDEO_FRAME);
      [|reflexivity].
    destruct (enabled (mMsgEnabled s) CAMERA_MSG_VIDEO_FRAME
              && mRecordRunning s); reflexivity.
Qed.

Lemma exec_in_session op s : in_session W s -> in_session W (exec W op s).
Proof.
  intros H. destruct op; cbn [exec];
    try (now apply (in_session_same W s)).
  - now apply startPreview_in_session.
  - now apply stopPreview_in_session.
  - rewrite startRecording_spec. fields.
    eapply in_session_app; [exact H|reflexivity| |fields; reflexivity].
    reflexivity.
  - change (snd (takePicture W s))
      with (snd (pictureThread W (snd (stopPreview W s)))).
    destruct (stopPreview_in_session s H).
    now apply pictureThread_in_session.
  - pose proof (setParameters_log params s) as E. cbv beta in E.
    injection E as E1 E2. now apply (in_session_same W s).
  - destruct (mPreviewThread s) as [t|] eqn:Ht; [|exact H].
    now apply (threadLoop_in_session s t).
Qed.

Lemma run_in_session ops s : in_session W s -> in_session W (run W ops s).
Proof.
  revert s. induction ops as [|op ops IH]; intros s H; [exact H|].
  apply IH. now apply exec_in_session.
Qed.

(** X3.  Whatever the client and the preview loop have done since the
    controller was constructed, its calls to the camera device form
    sessions: a node is opened only while the device is closed, the device
    is initialised, streamed from, grabbed from, uninitialised and closed
    only while it is open, and the device is open at the end exactly when
    the controller holds the preview loop. *)
Theorem device_session ops cameraId :
  let s := run W ops (CameraHardware cameraId) in
  device W (calls s) = Some (bool_decide (is_Some (mPreviewThread s))).
Proof.
  cbv zeta. apply run_in_session.
  rewrite CameraHardware_state. reflexivity.
Qed.

End Session.

Section Delivery.

Variable W : World.

#[local] Hint Resolve preserves_ret preserves_gets preserves_modify
  preserves_bind preserves_when preserves_repeat : frame.

(** X2.  A [startPreview] that fails on a controller holding no loop
    creates none, and leaves the stopped flag and the configuration as
    they were.  Either no node opened: the result is -1 after ten refused
    nodes and the controller is unchanged but for the log.  Or a node
    opened and [Init] or [StartStreaming] failed: the result is their
    status, the device is closed again ([Close] after a failed [Init];
    [Uninit], [Close] after a failed [StartStreaming]), and the frame
    size and the preview buffer region allocated before [Init] stay in
    place. *)
Theorem startPreview_failure s :
  mPreviewThread s = None ->
  fst (startPreview W s) <> NO_ERROR ->
  let s' := snd (startPreview W s) in
  let width := fst (getPreviewSize (mParameters s)) in
  let height := snd (getPreviewSize (mParameters s)) in
  let size := Int32.mul (Int32.mul width height) 2 in
  mPreviewThread s' = None
  /\ previewStopped s' = previewStopped s
  /\ mParameters s' = mParameters s
  /\ exists k, (1 <= k <= 10)%nat
       /\ (fst (startPreview W s) = -1 /\ k = 10%nat
           /\ s' = set_calls (calls s ++ probes 10 width height) s
           \/ exists status tail,
               fst (startPreview W s) = status /\ status <> 0
               /\ (status
                   = init_result W
                       (calls s ++ probes k width height
                        ++ [NewMemoryHeapBase size])
                   /\ tail = [CamInit; CamClose]
                   \/ status
                      = start_result W
                          (calls s ++ probes k width height
                           ++ [NewMemoryHeapBase size; CamInit])
                      /\ tail = [CamInit; CamStartStreaming; CamUninit;
                                 CamClose])
               /\ added s (calls s')
                  = probes k width height ++ NewMemoryHeapBase size :: tail
               /\ mPreviewFrameSize s' = size
               /\ exists heap,
                   mHeap s' = Some heap /\ heap_size heap = size
                   /\ mBuffer s'
                      = Some {| mem_heap := Some heap; mem_offset := 0;
                                mem_size := size |}).
Proof.
  intros Ht Hfail. cbv zeta.
  destruct (startPreview_cases W s Ht) as (k & Hk & _ & Hcase).
  cbv zeta in Hcase.
  destruct Hcase
    as [(Hneg & -> & E)
       | [(Hpos & Hi & E) | [(Hpos & Hi & Hj & E) | (Hpos & Hi & Hj & E)]]];
    rewrite E in *; unfold node_opened; fields.
  - repeat (split; [assumption || reflexivity|]).
    exists 10%nat. split; [lia|]. left. repeat split.
  - repeat (split; [assumption || reflexivity|]).
    exists k. split; [exact Hk|]. right.
    eexists; eexists. split; [reflexivity|]. split; [exact Hi|].
    split; [left; split; [rewrite <- app_assoc|]; reflexivity|].
    rewrite <- app_assoc, added_app.
    split; [reflexivity|]. split; [reflexivity|].
    eexists. split; [reflexivity|]. split; reflexivity.
  - repeat (split; [assumption || reflexivity|]).
    exists k. split; [exact Hk|]. right.
    eexists; eexists. split; [reflexivity|]. split; [exact Hj|].
    split; [right; split; [rewrite <- app_assoc|]; reflexivity|].
    rewrite <- app_assoc, added_app.
    split; [reflexivity|]. split; [reflexivity|].
    eexists. split; [reflexivity|]. split; reflexivity.
  - exfalso. apply Hfail. reflexivity.
Qed.

(** *** What reaches the client *)

Lemma allowed_quiet s l :
  forallb (fun c => negb (is_callback c)) l = true -> Forall (allowed s) l.
Proof.
  intros H. apply List.Forall_forall. intros c Hc.
  rewrite forallb_forall in H. specialize (H c Hc).
  destruct c; try discriminate H; exact I.
Qed.

Lemma opens_quiet a k w h :
  forallb (fun c => negb (is_callback c)) (opens a k w h) = true.
Proof.
  apply forallb_forall. intros c Hc. unfold opens in Hc.
  apply in_map_iff in Hc as (i & <- & _). reflexivity.
Qed.

Lemma forallb_app_quiet (l1 l2 : list Call) :
  forallb (fun c => negb (is_callback c)) l1 = true ->
  forallb (fun c => negb (is_callback c)) l2 = true ->
  forallb (fun c => negb (is_callback c)) (l1 ++ l2) = true.
Proof. intros H1 H2. rewrite forallb_app, H1, H2. reflexivity. Qed.

Lemma startPreview_appends s :
  exists l,
    calls (snd (startPreview W s)) = calls s ++ l
    /\ forallb (fun c => negb (is_callback c)) l = true
    /\ (length (filter is_allocation l) <= 1)%nat.
Proof.
  destruct (mPreviewThread s) as [t|] eqn:Ht.
  - rewrite startPreview_running by (rewrite Ht; eexists; reflexivity).
    exists []. rewrite app_nil_r. repeat split. cbn. lia.
  - destruct (startPreview_cases W s Ht) as (k & Hk & _ & Hcase).
    cbv zeta in Hcase.
    assert (Ha : forall l,
               filter is_allocation
                 (probes k (fst (getPreviewSize (mParameters s)))
                    (snd (getPreviewSize (mParameters s))) ++ l)
               = filter is_allocation l).
    { intros l. rewrite filter_app. unfold probes.
      rewrite opens_no_allocation. reflexivity. }
    destruct Hcase
      as [(Hneg & -> & E)
         | [(Hpos & Hi & E) | [(Hpos & Hi & Hj & E) | (Hpos & Hi & Hj & E)]]];
      rewrite E; unfold node_opened; fields; rewrite <- ?app_assoc;
      eexists; (split; [reflexivity|]);
      (split;
       [first [apply opens_quiet
              |apply forallb_app_quiet; [apply opens_quiet|reflexivity]]|]);
      try (rewrite Ha; apply Nat.eq_le_incl; reflexivity).
    unfold probes. rewrite opens_no_allocation. cbn. lia.
Qed.

Lemma stopPreview_appends s :
  exists l,
    snd (stopPreview W s)
    = set_mPreviewThread None
        (set_calls (calls s ++ l) (set_previewStopped true s))
    /\ forallb (fun c => negb (is_callback c)) l = true
    /\ filter is_allocation l = [].
Proof.
  destruct (mPreviewThread s) as [t|] eqn:Ht.
  - eexists. rewrite (stopPreview_running W s t Ht).
    split; [reflexivity|]. split; reflexivity.
  - exists []. rewrite (stopPreview_idle W s Ht). rewrite app_nil_r.
    split; [|split; reflexivity].
    destruct s; cbn in *; subst; reflexivity.
Qed.

Lemma pictureThread_appends s :
  exists l,
    calls (snd (pictureThread W s)) = calls s ++ l
    /\ Forall (allowed s) l
    /\ filter is_allocation l = [].
Proof.
  assert (Hsh : Forall (allowed s)
                  (if enabled (mMsgEnabled s) CAMERA_MSG_SHUTTER
                   then [NotifyFn (mNotifyFn s) CAMERA_MSG_SHUTTER 0 0
                           (mUser s)]
                   else [])).
  { destruct (enabled (mMsgEnabled s) CAMERA_MSG_SHUTTER) eqn:Es;
      constructor; [|constructor].
    cbn [allowed]. auto. }
  assert (Hjp : forall log,
             Forall (allowed s)
               (if enabled (mMsgEnabled s) CAMERA_MSG_COMPRESSED_IMAGE
                then [CamGrabJpegFrame;
                      DataFn (mDataFn s) CAMERA_MSG_COMPRESSED_IMAGE
                        (jpeg_frame W log) (mUser s)]
                else [])).
  { intros log.
    destruct (enabled (mMsgEnabled s) CAMERA_MSG_COMPRESSED_IMAGE) eqn:Ec;
      constructor; [exact I|].
    constructor; [|constructor]. cbn [allowed]. auto. }
  assert (Hno : forall b (l : list Call),
             filter is_allocation l = [] ->
             filter is_allocation (if b : bool then l else []) = []).
  { intros [|] l Hl; [exact Hl|reflexivity]. }
  destruct (pictureThread_spec W s) as (k & Hk & Hcase).
  cbv zeta in Hcase.
  destruct Hcase as [(_ & -> & ->) | (_ & ->)]; fields;
    eexists; (split; [reflexivity|]); unfold still_calls, probes;
    rewrite ?filter_app, ?opens_no_allocation, ?Hno by reflexivity.
  - split; [|reflexivity]. apply Forall_app. split; [exact Hsh|].
    apply allowed_quiet, opens_quiet.
  - split; [|reflexivity].
    repeat (apply Forall_app; split);
      try exact Hsh; try apply Hjp;
      apply allowed_quiet; (apply opens_quiet || reflexivity).
Qed.

Lemma previewThread_appends s :
  exists l,
    calls (snd (previewThread W s)) = calls s ++ l
    /\ Forall (allowed s) l
    /\ filter is_allocation l = [].
Proof.
  destruct (previewStopped s) eqn:Hs.
  - rewrite previewThread_stopped by exact Hs. exists [].
    rewrite app_nil_r. repeat split. constructor.
  - rewrite previewThread_running by exact Hs. fields.
    eexists. split; [reflexivity|].
    destruct (enabled (mMsgEnabled s) CAMERA_MSG_PREVIEW_FRAME
              || enabled (mMsgEnabled s) CAMERA_MSG_VIDEO_FRAME) eqn:Ep;
      [|split; [constructor; [exact I|constructor]|reflexivity]].
    assert (Hp : allowed s
                   (DataFn (mDataFn s) CAMERA_MSG_PREVIEW_FRAME (mBuffer s)
                      (mUser s))).
    { cbn [allowed]. auto 10. }
    destruct (enabled (mMsgEnabled s) CAMERA_MSG_VIDEO_FRAME
              && mRecordRunning s) eqn:Ev.
    + apply andb_true_iff in Ev as [Ev Er].
      split; [|reflexivity].
      constructor; [exact I|]. constructor; [exact I|].
      constructor; [cbn [allowed]; auto 10|].
      constructor; [exact Hp|constructor].
    + split; [|reflexivity].
      constructor; [exact I|]. constructor; [exact Hp|constructor].
Qed.

(** An operation only adds to the log, and what it adds is allowed in the
    state it is called in. *)
Lemma exec_appends op s :
  exists l,
    calls (exec W op s) = calls s ++ l
    /\ Forall (allowed s) l
    /\ (length (filter is_allocation l)
        <= if is_StartRecording op then 1
           else match op with StartPreview => 1 | _ => 0 end)%nat
    /\ (is_StartRecording op = true ->
        length (filter is_allocation l) = 1%nat).
Proof.
  destruct op; cbn [exec is_StartRecording];
    try (exists []; rewrite app_nil_r; repeat split;
         [constructor|cbn; lia|discriminate]).
  - destruct (startPreview_appends s) as (l & E & Hq & Ha).
    exists l. split; [exact E|]. split; [now apply allowed_quiet|].
    split; [exact Ha|discriminate].
  - destruct (stopPreview_appends s) as (l & -> & Hq & Ha). fields.
    exists l. split; [reflexivity|]. split; [now apply allowed_quiet|].
    rewrite Ha. split; [cbn; lia|discriminate].
  - rewrite startRecording_spec. fields. eexists. split; [reflexivity|].
    split; [constructor; [exact I|constructor]|].
    split; [apply Nat.eq_le_incl|]; reflexivity.
  - change (snd (takePicture W s))
      with (snd (pictureThread W (snd (stopPreview W s)))).
    destruct (stopPreview_appends s) as (l & E & Hq & Ha).
    destruct (pictureThread_appends (snd (stopPreview W s)))
      as (l' & -> & Hl' & Ha').
    rewrite E in *. fields. exists (l ++ l'). rewrite app_assoc.
    split; [reflexivity|]. rewrite filter_app, Ha, Ha'.
    split; [|split; [cbn; lia|discriminate]].
    apply Forall_app. split; [now apply allowed_quiet|].
    eapply List.Forall_impl; [|exact Hl'].
    intros c Hc. destruct c; try exact I; cbn [allowed] in *; fields.
    + exact Hc.
    + destruct Hc as (? & ? & [(? & ? & Hstop & ?)|?]);
        [discriminate Hstop|]. auto.
    + destruct Hc as (_ & _ & _ & _ & Hstop & _). discriminate Hstop.
  - pose proof (setParameters_log params s) as E. cbv beta in E.
    injection E as E1 E2. rewrite E1. exists []. rewrite app_nil_r.
    repeat split; [constructor|cbn; lia|discriminate].
  - destruct (mPreviewThread s);
      [|exists []; rewrite app_nil_r; repeat split;
        [constructor|cbn; lia|discriminate]].
    unfold threadLoop. step_m.
    destruct (previewThread_appends s) as (l & E & Hl & Ha).
    exists l. rewrite Ha. repeat split; [exact E|exact Hl|cbn; lia|
                                         discriminate].
Qed.

End Delivery.

Section Runs.

Variable W : World.

#[local] Hint Resolve preserves_ret preserves_gets preserves_modify
  preserves_bind preserves_when preserves_repeat call_preserves
  probe_preserves previewThread_preserves threadLoop_preserves
  requestExitAndWait_preserves pictureThread_preserves : frame.

Lemma run_cons op ops s : run W (op :: ops) s = run W ops (exec W op s).
Proof. reflexivity. Qed.

(** What holds of the calls of every step, as long as the steps leave an
    observation [obs] alone, holds of the calls of the run. *)
Lemma run_Forall {B} (obs : State -> B) (ok : Op -> bool)
    (Q : B -> Call -> Prop) :
  (forall op s, ok op = true -> obs (exec W op s) = obs s) ->
  (forall s c, allowed s c -> Q (obs s) c) ->
  forall ops s,
    forallb ok ops = true ->
    obs (run W ops s) = obs s
    /\ exists L, calls (run W ops s) = calls s ++ L /\ Forall (Q (obs s)) L.
Proof.
  intros Hobs HQ. induction ops as [|op ops IH]; intros s Hops.
  - split; [reflexivity|]. exists []. rewrite app_nil_r. split; constructor.
  - cbn [forallb] in Hops. apply andb_true_iff in Hops as [Hop Hops].
    rewrite run_cons.
    destruct (IH (exec W op s) Hops) as (E & L & -> & HL).
    rewrite (Hobs op s Hop) in *. split; [exact E|].
    destruct (exec_appends W op s) as (l & -> & Hl & _).
    exists (l ++ L). rewrite app_assoc. split; [reflexivity|].
    apply Forall_app. split; [|exact HL].
    eapply List.Forall_impl; [|exact Hl]. intros c. apply HQ.
Qed.

Lemma startPreview_installed : preserves installed (startPreview W).
Proof.
  unfold startPreview, camera_Init, camera_StartStreaming, new_PreviewThread,
    new_MemoryHeapBase, new_MemoryBase.
  frame.
Qed.

Lemma stopPreview_installed : preserves installed (stopPreview W).
Proof. unfold stopPreview. frame. Qed.

Lemma stopPreview_preview_region : preserves preview_region (stopPreview W).
Proof. unfold stopPreview. frame. Qed.

#[local] Hint Resolve stopPreview_installed stopPreview_preview_region
  : frame.

Lemma takePicture_installed : preserves installed (takePicture W).
Proof. unfold takePicture. frame. Qed.

Lemma setParameters_installed p : preserves installed (setParameters p).
Proof. unfold setParameters. frame. Qed.

Lemma takePicture_preview_region : preserves preview_region (takePicture W).
Proof. unfold takePicture. frame. Qed.

Lemma setParameters_preview_region p :
  preserves preview_region (setParameters p).
Proof. unfold setParameters. frame. Qed.

Lemma exec_installed op s :
  is_SetCallbacks op = false -> installed (exec W op s) = installed s.
Proof.
  destruct op; intros Hop; try discriminate; cbn [exec];
    try reflexivity.
  - apply startPreview_installed.
  - apply stopPreview_installed.
  - apply takePicture_installed.
  - apply setParameters_installed.
  - destruct (mPreviewThread s); [|reflexivity].
    apply threadLoop_preserves. reflexivity.
Qed.

Lemma exec_preview_region op s :
  is_StartPreview op = false ->
  preview_region (exec W op s) = preview_region s.
Proof.
  destruct op; intros Hop; try discriminate; cbn [exec];
    try reflexivity.
  - apply stopPreview_preview_region.
  - apply takePicture_preview_region.
  - apply setParameters_preview_region.
  - destruct (mPreviewThread s); [|reflexivity].
    apply threadLoop_preserves. reflexivity.
Qed.

(** X5.  After [setCallbacks] every callback the controller makes, until
    the callbacks are set again, goes through the pointers given: notify
    callbacks through [n], data callbacks through [d], timestamped ones
    through [t], all with the cookie [u]. *)
Theorem setCallbacks_installed n d t u ops s :
  forallb (fun op => negb (is_SetCallbacks op)) ops = true ->
  let s1 := snd (setCallbacks n d t u s) in
  Forall (through n d t u) (added s1 (calls (run W ops s1))).
Proof.
  intros Hops. cbv zeta.
  destruct (run_Forall installed (fun op => negb (is_SetCallbacks op))
              (fun '(n, d, t, u) => through n d t u))
    with (ops := ops) (s := snd (setCallbacks n d t u s))
    as (_ & L & -> & HL).
  - intros op s0 Hop. apply exec_installed.
    now destruct (is_SetCallbacks op).
  - intros s0 c Hc. unfold installed.
    destruct c; try exact I; cbn [allowed through] in *; tauto.
  - exact Hops.
  - rewrite added_app. exact HL.
Qed.

(** X6.  Only [startPreview] replaces the preview buffer region: over
    any steps without one, [getPreviewHeap] keeps returning the same heap
    and every preview frame delivered carries the same buffer, also across
    [setParameters], [stopPreview], [takePicture] and recording. *)
Theorem preview_buffer_reused ops s :
  forallb (fun op => negb (is_StartPreview op)) ops = true ->
  fst (getPreviewHeap (run W ops s)) = fst (getPreviewHeap s)
  /\ mBuffer (run W ops s) = mBuffer s
  /\ Forall (preview_frame_of (mBuffer s)) (added s (calls (run W ops s))).
Proof.
  intros Hops.
  destruct (run_Forall preview_region (fun op => negb (is_StartPreview op))
              (fun r => preview_frame_of (snd r)))
    with (ops := ops) (s := s)
    as (E & L & -> & HL).
  - intros op s0 Hop. apply exec_preview_region.
    now destruct (is_StartPreview op).
  - intros s0 c Hc. unfold preview_region.
    destruct c; try exact I; cbn [allowed preview_frame_of snd] in *.
    intros Hm. destruct Hc as (_ & _ & [(_ & E & _)|(Hm' & _)]);
      [exact E|]. rewrite Hm in Hm'. discriminate Hm'.
  - exact Hops.
  - unfold preview_region in E. injection E as E1 E2.
    rewrite added_app. split; [exact E1|]. split; [exact E2|exact HL].
Qed.

(** The buffer regions allocated in a run. *)
Lemma run_allocations ops s :
  exists L,
    calls (run W ops s) = calls s ++ L
    /\ (length (List.filter is_StartRecording ops)
        <= length (filter is_allocation L)
        <= length (List.filter is_StartRecording ops)
           + length (List.filter is_StartPreview ops))%nat.
Proof.
  revert s. induction ops as [|op ops IH]; intros s.
  - exists []. rewrite app_nil_r. split; [reflexivity|]. cbn. lia.
  - rewrite run_cons. destruct (IH (exec W op s)) as (L & -> & HL).
    destruct (exec_appends W op s) as (l & -> & _ & Hhi & Hlo).
    exists (l ++ L). rewrite app_assoc. split; [reflexivity|].
    rewrite filter_app, length_app. cbn [List.filter].
    destruct op; cbn [is_StartRecording is_StartPreview length] in *;
      try specialize (Hlo eq_refl); lia.
Qed.

(** X7.  Buffer regions are allocated by [startRecording], one each time
    it is called, and by [startPreview], at most one each time; no other
    operation, and no iteration of the preview loop, allocates. *)
Theorem allocations_bounded ops s :
  let allocated :=
    length (filter is_allocation (added s (calls (run W ops s)))) in
  (length (List.filter is_StartRecording ops) <= allocated
   <= length (List.filter is_StartRecording ops)
      + length (List.filter is_StartPreview ops))%nat.
Proof.
  cbv zeta. destruct (run_allocations ops s) as (L & -> & HL).
  rewrite added_app. exact HL.
Qed.

(** X8.  [takePicture] leaves the preview stopped, whatever the state it
    is called in and whether the capture worked: [previewEnabled] is false
    afterwards, the stopped flag is set and an iteration of the loop does
    nothing.  Recording, the configuration and the preview buffer region
    are as before, and the device, if it was open exactly while the loop
    was held, is closed. *)
Theorem takePicture_stops_preview s :
  let s' := snd (takePicture W s) in
  fst (previewEnabled s') = false
  /\ previewStopped s' = true
  /\ previewThread W s' = (NO_ERROR, s')
  /\ fst (recordingEnabled s') = fst (recordingEnabled s)
  /\ fst (getParameters s') = fst (getParameters s)
  /\ (mHeap s', mBuffer s', mPreviewFrameSize s')
     = (mHeap s, mBuffer s, mPreviewFrameSize s)
  /\ (device W (calls s) = Some (bool_decide (is_Some (mPreviewThread s))) ->
      device W (calls s') = Some false).
Proof.
  cbv zeta.
  change (snd (takePicture W s))
    with (snd (pictureThread W (snd (stopPreview W s)))).
  assert (Ht : mPreviewThread (snd (pictureThread W (snd (stopPreview W s))))
               = None).
  { rewrite (pictureThread_preserves W mPreviewThread) by reflexivity.
    destruct (stopPreview_shape W s) as (l & ->). reflexivity. }
  assert (Hs : previewStopped
                 (snd (pictureThread W (snd (stopPreview W s)))) = true).
  { rewrite (pictureThread_preserves W previewStopped) by reflexivity.
    destruct (stopPreview_shape W s) as (l & ->). reflexivity. }
  split; [unfold previewEnabled, gets; cbn [fst]; now rewrite Ht|].
  split; [exact Hs|].
  split; [now apply previewThread_stopped|].
  split.
  { unfold recordingEnabled, gets. cbn [fst].
    rewrite (pictureThread_preserves W mRecordRunning) by reflexivity.
    destruct (stopPreview_shape W s) as (l & ->). reflexivity. }
  split.
  { unfold getParameters, gets. cbn [fst].
    rewrite (pictureThread_preserves W mParameters) by reflexivity.
    destruct (stopPreview_shape W s) as (l & ->). reflexivity. }
  split.
  { rewrite (pictureThread_preserves W
               (fun s => (mHeap s, mBuffer s, mPreviewFrameSize s)))
      by reflexivity.
    destruct (stopPreview_shape W s) as (l & ->). reflexivity. }
  intros H. destruct (stopPreview_in_session W s H) as [H1 H2].
  pose proof (pictureThread_in_session W _ H1 H2) as H3.
  unfold in_session in H3. rewrite H3, Ht. reflexivity.
Qed.

End Runs.

Section Settings.

Variable W : World.

#[local] Hint Resolve preserves_ret preserves_gets preserves_modify
  preserves_bind preserves_when preserves_repeat call_preserves
  probe_preserves previewThread_preserves threadLoop_preserves
  requestExitAndWait_preserves pictureThread_preserves : frame.

Lemma setParameters_stored p s :
  getPreviewFormat p = Some "yuv422sp" ->
  getPictureFormat p = Some "jpeg" ->
  setParameters p s = (NO_ERROR, set_mParameters (stored p) s).
Proof. apply setParameters_accepted. Qed.

Lemma getPreviewSize_stored p : getPreviewSize (stored p) = getPreviewSize p.
Proof.
  unfold stored, getPreviewSize, setPreviewSize.
  rewrite getSize_set_ne by keys. apply getSize_rewrite.
Qed.

Lemma stored_stored p : stored (stored p) = stored p.
Proof.
  unfold stored at 1. rewrite getPreviewSize_stored.
  unfold stored, setPreviewSize, setSize, set.
  apply map_eq. intros k.
  destruct (decide (k = KEY_SUPPORTED_PREVIEW_FPS_RANGE)) as [->|Hf];
    [now rewrite !lookup_insert_eq|].
  destruct (decide (k = KEY_PREVIEW_SIZE)) as [->|Hs].
  - rewrite !(lookup_insert_ne _ KEY_SUPPORTED_PREVIEW_FPS_RANGE)
      by congruence.
    rewrite !lookup_insert_eq. reflexivity.
  - now rewrite !lookup_insert_ne by congruence.
Qed.

Lemma stored_settled p :
  getPreviewFormat p = Some "yuv422sp" ->
  getPictureFormat p = Some "jpeg" ->
  settled (stored p).
Proof.
  intros Hv Hj. unfold settled. rewrite stored_stored.
  unfold stored, getPreviewFormat, getPictureFormat, setPreviewSize, setSize.
  rewrite !get_set_ne by keys. auto.
Qed.

Lemma setParameters_settled p s :
  settled (mParameters s) -> settled (mParameters (snd (setParameters p s))).
Proof.
  intros H.
  destruct (differs (getPreviewFormat p) "yuv422sp") eqn:Ev;
    [rewrite setParameters_rejected by auto; exact H|].
  destruct (differs (getPictureFormat p) "jpeg") eqn:Ej;
    [rewrite setParameters_rejected by auto; exact H|].
  apply differs_false in Ev, Ej.
  rewrite setParameters_stored by assumption. fields.
  now apply stored_settled.
Qed.

Lemma startPreview_mParameters : preserves mParameters (startPreview W).
Proof.
  unfold startPreview, camera_Init, camera_StartStreaming, new_PreviewThread,
    new_MemoryHeapBase, new_MemoryBase.
  frame.
Qed.

Lemma stopPreview_mParameters : preserves mParameters (stopPreview W).
Proof. unfold stopPreview. frame. Qed.

#[local] Hint Resolve stopPreview_mParameters : frame.

Lemma takePicture_mParameters : preserves mParameters (takePicture W).
Proof. unfold takePicture. frame. Qed.

(** Only [setParameters] writes the configuration. *)
Lemma exec_mParameters op s :
  is_SetParameters op = false -> mParameters (exec W op s) = mParameters s.
Proof.
  destruct op; intros Hop; try discriminate; cbn [exec];
    try reflexivity.
  - apply startPreview_mParameters.
  - apply stopPreview_mParameters.
  - apply takePicture_mParameters.
  - destruct (mPreviewThread s); [|reflexivity].
    apply threadLoop_preserves. reflexivity.
Qed.

Lemma exec_settled op s :
  settled (mParameters s) -> settled (mParameters (exec W op s)).
Proof.
  intros H. destruct (is_SetParameters op) eqn:Hop.
  - destruct op; try discriminate Hop. cbn [exec].
    now apply setParameters_settled.
  - now rewrite exec_mParameters.
Qed.

Lemma run_settled ops s :
  settled (mParameters s) -> settled (mParameters (run W ops s)).
Proof.
  revert s. induction ops as [|op ops IH]; intros s H; [exact H|].
  apply IH. now apply exec_settled.
Qed.

Lemma set_mParameters_id s : set_mParameters (mParameters s) s = s.
Proof. destruct s; reflexivity. Qed.

(** X9.  An accepted [setParameters] replaces the configuration as a
    whole: every key other than the preview size and the list of frame-rate
    ranges is as in the client's configuration, present or missing, so
    nothing of the configuration held before survives.  The preview size
    is written back as parsed, which is [-1x-1] when the client's
    configuration has none; nothing else of the controller changes. *)
Theorem setParameters_replaces p s :
  getPreviewFormat p = Some "yuv422sp" ->
  getPictureFormat p = Some "jpeg" ->
  let q := fst (getParameters (snd (setParameters p s))) in
  (forall k, k <> KEY_PREVIEW_SIZE -> k <> KEY_SUPPORTED_PREVIEW_FPS_RANGE ->
     q !! k = p !! k)
  /\ q !! KEY_PREVIEW_SIZE
     = Some (Libc.show_int (fst (getPreviewSize p)) ++ "x"
             ++ Libc.show_int (snd (getPreviewSize p)))%string
  /\ (get KEY_PREVIEW_SIZE p = None -> q !! KEY_PREVIEW_SIZE = Some "-1x-1")
  /\ q !! KEY_SUPPORTED_PREVIEW_FPS_RANGE = Some supportedFpsRanges
  /\ snd (setParameters p s) = set_mParameters q s.
Proof.
  intros Hv Hj. cbv zeta. rewrite setParameters_stored by assumption.
  unfold getParameters, gets. fields.
  unfold stored, setPreviewSize, setSize, set.
  split; [intros k Hs Hf; now rewrite !lookup_insert_ne by congruence|].
  split; [rewrite lookup_insert_ne by keys; apply lookup_insert_eq|].
  split; [|split; [apply lookup_insert_eq|reflexivity]].
  intros Hnone. rewrite lookup_insert_ne by keys. rewrite lookup_insert_eq.
  unfold getPreviewSize, getSize. rewrite Hnone. reflexivity.
Qed.

(** X10.  What [getParameters] returns is accepted by [setParameters] and
    leaves the controller exactly as it is, in every state the controller
    reaches from its construction. *)
Theorem getParameters_setParameters ops cameraId :
  let s := run W ops (CameraHardware cameraId) in
  setParameters (fst (getParameters s)) s = (NO_ERROR, s).
Proof.
  cbv zeta. unfold getParameters, gets. cbn [fst].
  assert (H : settled (mParameters (run W ops (CameraHardware cameraId)))).
  { apply run_settled. rewrite CameraHardware_state. fields.
    apply stored_settled; vm_compute; reflexivity. }
  destruct H as (Hv & Hj & E).
  rewrite setParameters_stored by assumption.
  rewrite E, set_mParameters_id. reflexivity.
Qed.

End Settings.

Section Kinds.

Lemma enabled_lor_kind mask a b :
  enabled mask (Z.lor a b) = enabled mask a || enabled mask b.
Proof.
  unfold enabled. rewrite Z.land_lor_distr_r.
  destruct (Z.eqb_spec (Z.land mask a) 0) as [Ea|Ea],
           (Z.eqb_spec (Z.land mask b) 0) as [Eb|Eb]; cbn [negb orb];
    destruct (Z.eqb_spec (Z.lor (Z.land mask a) (Z.land mask b)) 0)
      as [E|E]; try reflexivity;
    try (apply Z.lor_eq_0_iff in E; destruct E; contradiction).
  exfalso. apply E. rewrite Ea, Eb. reflexivity.
Qed.

Lemma enabled_comm a b : enabled a b = enabled b a.
Proof. unfold enabled. now rewrite Z.land_comm. Qed.

(** X11.  Message kinds are bit masks.  [msgTypeEnabled] answers yes when
    any bit of the kind asked for is enabled: after [enableMsgType kind] a
    kind is enabled if it was or if it shares a bit with [kind], after
    [disableMsgType kind] if one of its bits outside [kind] was, and a kind
    made of two is enabled if either is.  The empty kind is never enabled;
    enabling and disabling are idempotent, and enabling two kinds gives
    the same controller in either order. *)
Theorem message_kinds kind other s :
  fst (msgTypeEnabled other (snd (enableMsgType kind s)))
  = fst (msgTypeEnabled other s) || enabled kind other
  /\ fst (msgTypeEnabled other (snd (disableMsgType kind s)))
     = fst (msgTypeEnabled (Z.land other (Z.lnot kind)) s)
  /\ fst (msgTypeEnabled (Z.lor kind other) s)
     = fst (msgTypeEnabled kind s) || fst (msgTypeEnabled other s)
  /\ fst (msgTypeEnabled kind (snd (disableMsgType kind s))) = false
  /\ fst (msgTypeEnabled 0 s) = false
  /\ snd (enableMsgType kind (snd (enableMsgType kind s)))
     = snd (enableMsgType kind s)
  /\ snd (disableMsgType kind (snd (disableMsgType kind s)))
     = snd (disableMsgType kind s)
  /\ snd (enableMsgType kind (snd (enableMsgType other s)))
     = snd (enableMsgType other (snd (enableMsgType kind s))).
Proof.
  unfold msgTypeEnabled, enableMsgType, disableMsgType, gets, modify.
  fields. repeat apply conj.
  - rewrite (enabled_comm (Z.lor _ _)), enabled_lor_kind.
    now rewrite !(enabled_comm other).
  - unfold enabled. do 2 f_equal.
    rewrite <- Z.land_assoc. f_equal. apply Z.land_comm.
  - apply enabled_lor_kind.
  - apply enabled_land_lnot.
  - unfold enabled. now rewrite Z.land_0_r.
  - unfold set_mMsgEnabled. fields. f_equal.
    now rewrite <- Z.lor_assoc, Z.lor_diag.
  - unfold set_mMsgEnabled. fields. f_equal.
    now rewrite <- Z.land_assoc, Z.land_diag.
  - unfold set_mMsgEnabled. fields. f_equal.
    now rewrite <- !Z.lor_assoc, (Z.lor_comm kind).
Qed.

End Kinds.

Section Instance.

Variable W : World.

(** X4.  Every callback made by an operation of the client, by an
    iteration of the preview loop or by the auto-focus thread goes through
    the pointer installed for its kind of callback, with the cookie
    installed, and carries a message kind that is enabled in the state the
    step starts from.  A preview frame carries the preview buffer and is
    delivered while preview is not stopped, if preview frames or video
    frames are enabled; a video frame carries the record buffer and needs
    recording active. *)
Theorem guarded_delivery s :
  (forall op, Forall (allowed s) (added s (calls (exec W op s))))
  /\ Forall (allowed s) (added s (calls (snd (beginAutoFocusThread s)))).
Proof.
  split.
  - intros op. destruct (exec_appends W op s) as (l & -> & H & _).
    rewrite added_app. exact H.
  - unfold beginAutoFocusThread, autoFocusThread. step_m.
    destruct (enabled (mMsgEnabled s) CAMERA_MSG_FOCUS) eqn:E; step_m.
    + rewrite added_app. constructor; [|constructor].
      cbn [allowed]. auto.
    + rewrite added_nil. constructor.
Qed.

(** X12.  In every state the controller reaches from its construction:
    while [previewEnabled] holds the stopped flag is clear, [getPreviewHeap]
    returns a heap of the preview frame size and the preview buffer is a
    window over the whole of it; while [recordingEnabled] holds the record
    buffer is a window over the whole of the record heap. *)
Theorem buffers_ready ops cameraId :
  let s := run W ops (CameraHardware cameraId) in
  (fst (previewEnabled s) = true ->
   previewStopped s = false
   /\ exists heap,
       fst (getPreviewHeap s) = Some heap
       /\ heap_size heap = mPreviewFrameSize s
       /\ mBuffer s
          = Some {| mem_heap := Some heap; mem_offset := 0;
                    mem_size := mPreviewFrameSize s |})
  /\ (fst (recordingEnabled s) = true ->
      exists heap,
        mRecordHeap s = Some heap
        /\ mRecordBuffer s
           = Some {| mem_heap := Some heap; mem_offset := 0;
                     mem_size := heap_size heap |}).
Proof.
  cbv zeta. destruct (controller_invariants W ops cameraId) as [Hp Hr].
  split; [|exact Hr].
  unfold previewEnabled, getPreviewHeap, gets. cbn [fst]. intros H.
  destruct (mPreviewThread (run W ops (CameraHardware cameraId)))
    as [t|] eqn:Ht; [|discriminate H].
  exact (Hp t Ht).
Qed.

Lemma process_exec_one_instance op pr :
  one_instance pr -> one_instance (process_exec op pr).
Proof.
  intros J. destruct op as [cameraId|a]; cbn [process_exec].
  - unfold HAL_openCameraHardware, createInstance, promote.
    assert (Hnew : (forall b, singleton pr = Some b -> objects pr !! b = None)
                   -> one_instance (snd (new_CameraHardware cameraId pr))).
    { intros Hdead b x. unfold new_CameraHardware.
      cbn [snd objects singleton]. intros Hb.
      destruct (decide (next_object pr = b)) as [<-|Hne].
      - rewrite lookup_insert_eq in Hb. injection Hb as <-. cbn [snd]. auto.
      - rewrite lookup_insert_ne in Hb by exact Hne.
        destruct (J b x Hb) as [Hs _]. rewrite (Hdead b Hs) in Hb.
        discriminate Hb. }
    destruct (singleton pr) as [a|] eqn:Hs; [|apply Hnew; discriminate].
    destruct (objects pr !! a) as [[st n]|] eqn:Ha.
    + intros b x. unfold destroy. cbn [fst snd objects singleton].
      intros Hb.
      destruct (decide (a = b)) as [<-|Hne].
      * rewrite lookup_insert_eq in Hb. injection Hb as <-. cbn [snd].
        split; [reflexivity|lia].
      * rewrite lookup_insert_ne in Hb by exact Hne.
        destruct (J b x Hb) as [Hs' _]. congruence.
    + apply Hnew. intros b Hb. congruence.
  - unfold release_reference.
    destruct (objects pr !! a) as [[st n]|] eqn:Ha; [|exact J].
    destruct (Nat.leb_spec n 1) as [Hn|Hn].
    + intros b x. unfold destroy. cbn [fst snd objects singleton].
      intros Hb.
      destruct (decide (a = b)) as [<-|Hne].
      * rewrite lookup_delete_eq in Hb. discriminate Hb.
      * rewrite lookup_delete_ne in Hb by exact Hne.
        destruct (J b x Hb) as [Hs' _].
        destruct (J a _ Ha) as [Hs _]. congruence.
    + intros b x. unfold destroy. cbn [fst snd objects singleton].
      intros Hb.
      destruct (decide (a = b)) as [<-|Hne].
      * rewrite lookup_insert_eq in Hb. injection Hb as <-. cbn [snd].
        destruct (J a _ Ha) as [Hs _]. split; [exact Hs|lia].
      * rewrite lookup_insert_ne in Hb by exact Hne. exact (J b x Hb).
Qed.

Lemma process_run_one_instance ops pr :
  one_instance pr -> one_instance (process_run ops pr).
Proof.
  revert pr. induction ops as [|op ops IH]; intros pr J; [exact J|].
  apply IH. now apply process_exec_one_instance.
Qed.

(** X13.  However controllers have been opened and let go of, at most one
    is alive.  While one is alive, [createInstance] returns that very
    controller, whatever camera it is asked for, with one more reference
    to it and its state untouched; it constructs a controller, for the
    camera asked for, only when none is alive. *)
Theorem createInstance_singleton ops :
  let pr := process_run ops boot in
  (forall a b x y,
      objects pr !! a = Some x -> objects pr !! b = Some y -> a = b)
  /\ (forall a st n cameraId,
         objects pr !! a = Some (st, n) ->
         fst (createInstance cameraId pr) = a
         /\ objects (snd (createInstance cameraId pr))
            = <[a := (st, S n)]> (objects pr))
  /\ (forall cameraId,
         objects pr = ∅ ->
         objects (snd (createInstance cameraId pr))
         = {[ fst (createInstance cameraId pr)
              := (CameraHardware cameraId, 1%nat) ]}).
Proof.
  cbv zeta.
  assert (J : one_instance (process_run ops boot)).
  { apply process_run_one_instance. intros a x Ha.
    cbn [boot objects] in Ha. rewrite lookup_empty in Ha. discriminate Ha. }
  revert J. generalize (process_run ops boot). intros pr J.
  split; [|split].
  - intros a b x y Ha Hb.
    destruct (J a x Ha) as [Hs _], (J b y Hb) as [Hs' _]. congruence.
  - intros a st n cameraId Ha. destruct (J a _ Ha) as [Hs _].
    unfold createInstance, promote. rewrite Hs, Ha.
    cbn [fst snd objects]. auto.
  - intros cameraId He. unfold createInstance, promote.
    destruct (singleton pr) as [a|]; rewrite ?He, ?lookup_empty;
      unfold new_CameraHardware; cbn [fst snd objects];
      rewrite He; apply insert_empty.
Qed.

End Instance.

Section Construction.

(** X14.  The controller as constructed, for any camera: its default
    configuration is accepted, so the constructor's failure branch is not
    taken.  It has made no call, holds no loop, no heap and no callbacks,
    records nothing and has no message kind enabled.  Its preview and
    picture size are 320x240 at 30 frames per second, and the preview
    sizes it offers are [640x480] alone: the entry [CAM_SIZE] written
    first is overwritten. *)
Theorem constructor_defaults cameraId :
  let s := CameraHardware cameraId in
  fst (setParameters defaultParameters (initial cameraId)) = NO_ERROR
  /\ mCameraId s = cameraId
  /\ calls s = []
  /\ fst (previewEnabled s) = false
  /\ fst (recordingEnabled s) = false
  /\ fst (getPreviewHeap s) = None
  /\ installed s = (None, None, None, None)
  /\ (forall kind, fst (msgTypeEnabled kind s) = false)
  /\ getPreviewSize (fst (getParameters s)) = (MIN_WIDTH, MIN_HEIGHT)
  /\ getPictureSize (fst (getParameters s)) = (MIN_WIDTH, MIN_HEIGHT)
  /\ getPreviewFrameRate (fst (getParameters s)) = 30
  /\ get KEY_SUPPORTED_PREVIEW_SIZES (fst (getParameters s)) = Some "640x480"
  /\ get KEY_SUPPORTED_PICTURE_SIZES (fst (getParameters s)) = Some CAM_SIZE
  /\ get KEY_SUPPORTED_PREVIEW_FPS_RANGE (fst (getParameters s))
     = Some supportedFpsRanges.
Proof.
  cbv zeta. rewrite CameraHardware_state.
  unfold previewEnabled, recordingEnabled, getPreviewHeap, msgTypeEnabled,
    getParameters, gets, installed.
  fields.
  split; [vm_compute; reflexivity|].
  do 6 (split; [reflexivity|]).
  split; [intros kind; unfold initial; fields; reflexivity|].
  repeat split; vm_compute; reflexivity.
Qed.

End Construction.

(** ** The same, on the machines above *)

Lemma startPreview_failure_witness :
  mPreviewThread (CameraHardware 0) = None
  /\ fst (startPreview stuck_camera (CameraHardware 0)) = -1
  /\ mPreviewThread (snd (startPreview stuck_camera (CameraHardware 0)))
     = None
  /\ previewStopped (snd (startPreview stuck_camera (CameraHardware 0)))
     = true.
Proof.
  split; [vm_compute; reflexivity|]. split; [vm_compute; reflexivity|].
  destruct (startPreview_failure stuck_camera (CameraHardware 0))
    as (H1 & H2 & _).
  - vm_compute. reflexivity.
  - vm_compute. discriminate.
  - split; [exact H1|]. rewrite H2. vm_compute. reflexivity.
Defined.

Lemma setCallbacks_installed_witness :
  let s1 :=
    snd (setCallbacks (Some 1%nat) (Some 2%nat) (Some 3%nat) (Some 4%nat)
           (CameraHardware 0)) in
  Forall (through (Some 1%nat) (Some 2%nat) (Some 3%nat) (Some 4%nat))
    (added s1
       (calls
          (run one_camera
             [EnableMsgType CAMERA_MSG_PREVIEW_FRAME; StartPreview;
              LoopIteration; TakePicture]
             s1))).
Proof. apply setCallbacks_installed. reflexivity. Defined.

Lemma preview_buffer_reused_witness :
  let ops :=
    [LoopIteration;
     SetParameters (setPreviewSize 640 480 defaultParameters);
     LoopIteration; StartRecording; LoopIteration; StopPreview] in
  mBuffer (run one_camera ops previewing) = mBuffer previewing
  /\ Forall (preview_frame_of (mBuffer previewing))
       (added previewing (calls (run one_camera ops previewing))).
Proof.
  cbv zeta.
  destruct (preview_buffer_reused one_camera
              [LoopIteration;
               SetParameters (setPreviewSize 640 480 defaultParameters);
               LoopIteration; StartRecording; LoopIteration; StopPreview]
              previewing)
    as (_ & H1 & H2).
  - vm_compute. reflexivity.
  - split; [exact H1|exact H2].
Defined.

Lemma setParameters_replaces_witness :
  let p :=
    set "zoom" "2"
      (setPictureFormat "jpeg"
         (setPreviewFormat "yuv422sp" CameraParameters.empty)) in
  let q :=
    fst (getParameters (snd (setParameters p (CameraHardware 0)))) in
  q !! "zoom" = Some "2"
  /\ q !! KEY_PREVIEW_SIZE = Some "-1x-1"
  /\ q !! KEY_SUPPORTED_PREVIEW_SIZES = None.
Proof.
  cbv zeta.
  destruct (setParameters_replaces
              (set "zoom" "2"
                 (setPictureFormat "jpeg"
                    (setPreviewFormat "yuv422sp" CameraParameters.empty)))
              (CameraHardware 0))
    as (H1 & _ & H2 & _).
  - vm_compute. reflexivity.
  - vm_compute. reflexivity.
  - split; [rewrite H1 by keys; vm_compute; reflexivity|].
    split; [apply H2; vm_compute; reflexivity|].
    rewrite H1 by keys. vm_compute. reflexivity.
Defined.
